(** * io-event-reactor-plugin-shell-exec: the reaction pipeline

    A shallow embedding of [ShellExecReactorPlugin] (constructor, [getId],
    [react], [_log], [_onError]) together with the collaborators it talks
    to, and the properties of the reaction pipeline proved about it.

    JavaScript code is embedded in a small monad [Js] that threads the heap
    (the plugin object, the promise of the reaction in progress and the
    trace of calls made to collaborators) and carries thrown exceptions, so
    that [try]/[catch], the settle-once behaviour of promises and code that
    goes on after a [reject] are all written the way the source has them. *)

From Stdlib Require Import String Ascii List PeanoNat DecimalString.
Import ListNotations.

Open Scope string_scope.
Open Scope list_scope.

(** JavaScript's [+] on strings. *)
Infix "+++" := String.append (right associativity, at level 60).

(* ------------------------------------------------------------------ *)
(** ** Values shared by all components *)

(** A thrown JavaScript error: its [name] and [message]. *)
Record JsError := mkError { errName : string; errMessage : string }.

Definition Error (message : string) : JsError := mkError "Error" message.
Definition TypeError (message : string) : JsError := mkError "TypeError" message.

(** [Error.prototype.toString], which is what ["..." + e] uses. *)
Definition toString (e : JsError) : string :=
  if String.eqb (errName e) "" then errMessage e
  else if String.eqb (errMessage e) "" then errName e
  else errName e +++ ": " +++ errMessage e.

(** The values a template view is made of.  A primitive is held by the
    text [String(value)] gives for it, which is all a template can see. *)
#[warnings="-register-all"]
Inductive JsVal :=
| VUndefined
| VString (s : string)
| VObject (fields : list (string * JsVal)).

Fixpoint assoc {A : Type} (key : string) (fields : list (string * A)) : option A :=
  match fields with
  | [] => None
  | (k, v) :: rest => if String.eqb k key then Some v else assoc key rest
  end.

(** [obj[key]] *)
Definition getProperty (obj : JsVal) (key : string) : JsVal :=
  match obj with
  | VObject fields =>
      match assoc key fields with Some v => v | None => VUndefined end
  | _ => VUndefined
  end.

(** Decimal text of a number, as string concatenation prints it. *)
Definition decimal (n : nat) : string :=
  NilZero.string_of_uint (Nat.to_uint n).

(** [Array.prototype.join] *)
Fixpoint join (sep : string) (l : list string) : string :=
  match l with
  | [] => ""
  | [x] => x
  | x :: rest => x +++ sep +++ join sep rest
  end.

(* ------------------------------------------------------------------ *)
(** ** Strings as character lists *)

Definition chars (s : string) : list ascii := list_ascii_of_string s.
Definition text (l : list ascii) : string := string_of_list_ascii l.

Definition isSlash (c : ascii) : bool := Ascii.eqb c "/".
Definition notSlash (c : ascii) : bool := negb (isSlash c).

Fixpoint dropWhile {A : Type} (p : A -> bool) (l : list A) : list A :=
  match l with
  | [] => []
  | x :: rest => if p x then dropWhile p rest else l
  end.

Fixpoint takeWhile {A : Type} (p : A -> bool) (l : list A) : list A :=
  match l with
  | [] => []
  | x :: rest => if p x then x :: takeWhile p rest else []
  end.

(** [String.prototype.split] on a one-character separator. *)
Fixpoint splitChars (sep : ascii) (l : list ascii) (cur : list ascii)
  : list (list ascii) :=
  match l with
  | [] => [rev cur]
  | c :: rest =>
      if Ascii.eqb c sep then rev cur :: splitChars sep rest []
      else splitChars sep rest (c :: cur)
  end.

Definition splitOn (sep : ascii) (s : string) : list string :=
  map text (splitChars sep (chars s) []).

(* ------------------------------------------------------------------ *)
(** ** Node's [path] module (POSIX flavour) *)

Module path.

(** [path.basename]: trailing slashes are skipped, then the characters
    back to the previous slash are kept. *)
Definition basename (p : string) : string :=
  text (rev (takeWhile notSlash (dropWhile isSlash (rev (chars p))))).

(** [path.dirname]: the scan runs from the last character down to index
    1; trailing slashes and then the last component are skipped, and the
    path is cut at the slash found. *)
Definition dirname (p : string) : string :=
  match chars p with
  | [] => "."
  | c0 :: others =>
      let hasRoot := isSlash c0 in
      match dropWhile notSlash (dropWhile isSlash (rev others)) with
      | [] => if hasRoot then "/" else "."
      | _slash :: before =>
          match before with
          | [] => if hasRoot then "//" else text [c0]
          | _ => text (c0 :: rev before)
          end
      end
  end.

End path.

(* ------------------------------------------------------------------ *)
(** ** Events and results (package io-event-reactor-plugin-support) *)

Module IoEvent.

(** Modelled from the spec: the [IoEvent] class is imported from the
    package io-event-reactor-plugin-support, whose source is not part of
    this repository.  The stored fields are those of the constructor
    call [new IoEvent(eventType, fullPath, stats, extraInfo)] made by
    this plugin, plus the [uuid] the plugin's documentation lists; the
    [uuid] also stands for the identity of the object. *)
Record t := new {
  uuid : string;
  eventType : string;
  fullPath : string;
  optionalFsStats : JsVal;
  optionalExtraInfo : JsVal
}.

(** Modelled from the spec: derived fields, computed from [fullPath]
    whenever they are read (section 3 of the specification; the earlier
    revision of this plugin computed them with [path.dirname] and
    [path.basename]). *)
Definition parentPath (e : t) : string := path.dirname (fullPath e).
Definition filename (e : t) : string := path.basename (fullPath e).
Definition parentName (e : t) : string := path.basename (parentPath e).

(** The event as a template sees it: one property per getter. *)
Definition view (e : t) : JsVal :=
  VObject [ ("uuid", VString (uuid e));
            ("eventType", VString (eventType e));
            ("fullPath", VString (fullPath e));
            ("parentPath", VString (parentPath e));
            ("parentName", VString (parentName e));
            ("filename", VString (filename e));
            ("optionalFsStats", optionalFsStats e);
            ("optionalExtraInfo", optionalExtraInfo e) ].

End IoEvent.

Module ReactorResult.

(** [new ReactorResult(success, pluginId, reactorId, ioEvent, message, error)];
    [error] is [None] when the constructor is called with five arguments. *)
Record t := new {
  isSuccess : bool;
  pluginId : string;
  reactorId : string;
  ioEvent : IoEvent.t;
  message : string;
  error : option JsError
}.

End ReactorResult.

(* ------------------------------------------------------------------ *)
(** ** The templating engine *)

Module Mustache.

(** Modelled from the spec: the templating engine is the external
    package mustache.  Section 6 of the specification describes it as
    [render(templateString, contextObject) -> string] with double and
    triple brace interpolation, and section 7 has it raise on a malformed
    template.  The model covers text, comments and variable tags
    ([{{name}}], [{{{name}}}], [{{&name}}], dotted names); sections,
    partials and delimiter changes are outside it and are reported as an
    error, so that nothing below depends on them unnoticed. *)

Definition isWhite (c : ascii) : bool :=
  Ascii.eqb c " " || Ascii.eqb c (ascii_of_nat 9)
  || Ascii.eqb c (ascii_of_nat 10) || Ascii.eqb c (ascii_of_nat 13).

Definition trim (l : list ascii) : list ascii :=
  rev (dropWhile isWhite (rev (dropWhile isWhite l))).

(** The entity map of [escapeHtml]. *)
Definition escapeChar (c : ascii) : list ascii :=
  if Ascii.eqb c "&" then chars "&amp;"
  else if Ascii.eqb c "<" then chars "&lt;"
  else if Ascii.eqb c ">" then chars "&gt;"
  else if Ascii.eqb c (ascii_of_nat 34) then chars "&quot;"
  else if Ascii.eqb c "'" then chars "&#39;"
  else if Ascii.eqb c "/" then chars "&#x2F;"
  else if Ascii.eqb c "`" then chars "&#x60;"
  else if Ascii.eqb c "=" then chars "&#x3D;"
  else [c].

Definition escapeHtml (s : string) : string :=
  text (flat_map escapeChar (chars s)).

(** [Context.lookup]: a dotted name is walked one property at a time and
    the walk stops at the first missing value. *)
Fixpoint walk (names : list string) (value : JsVal) : JsVal :=
  match names with
  | [] => value
  | name :: rest =>
      match value with
      | VUndefined => VUndefined
      | _ => walk rest (getProperty value name)
      end
  end.

Definition lookup (name : string) (view : JsVal) : JsVal :=
  if String.eqb name "." then view else walk (splitOn "." name) view.

(** What a variable tag writes: nothing for a missing value, otherwise
    [String(value)], escaped for the double-brace form. *)
Definition interpolate (escaped : bool) (name : list ascii) (view : JsVal)
  : string :=
  match lookup (text (trim name)) view with
  | VUndefined => ""
  | VString s => if escaped then escapeHtml s else s
  | VObject _ => "[object Object]"
  end.

Definition isSectionSigil (c : ascii) : bool :=
  Ascii.eqb c "#" || Ascii.eqb c "^" || Ascii.eqb c "/"
  || Ascii.eqb c ">" || Ascii.eqb c "=".

(** The text of one double-brace tag, by the sigil it starts with. *)
Definition renderTag (tag : list ascii) (view : JsVal) : JsError + string :=
  match tag with
  | c :: name =>
      if Ascii.eqb c "&" then inr (interpolate false name view)
      else if Ascii.eqb c "!" then inr ""
      else if isSectionSigil c
           then inl (Error ("Tag outside the modelled fragment: " +++ text tag))
      else inr (interpolate true tag view)
  | [] => inr (interpolate true tag view)
  end.

Inductive Mode :=
| Text
| Tag (triple : bool) (acc : list ascii).

Definition isOpen (c : ascii) : bool := Ascii.eqb c "{".
Definition isClose (c : ascii) : bool := Ascii.eqb c "}".

Definition unclosed (len : nat) : JsError :=
  Error ("Unclosed tag at " +++ decimal len).

(** The scanner: text is copied up to an opening [{{]; a tag runs to its
    closing braces; a tag still open at the end of the template is the
    error mustache reports as [Unclosed tag at <position>]. *)
Fixpoint scan (view : JsVal) (len : nat) (l : list ascii) (mode : Mode)
         (out : string) {struct l} : JsError + string :=
  match l with
  | [] =>
      match mode with
      | Text => inr out
      | Tag _ _ => inl (unclosed len)
      end
  | c1 :: rest1 =>
      match mode with
      | Text =>
          if isOpen c1 then
            match rest1 with
            | c2 :: rest2 =>
                if isOpen c2 then
                  match rest2 with
                  | c3 :: rest3 =>
                      if isOpen c3 then scan view len rest3 (Tag true []) out
                      else scan view len rest2 (Tag false []) out
                  | [] => scan view len rest2 (Tag false []) out
                  end
                else scan view len rest1 Text (out +++ text [c1])
            | [] => scan view len rest1 Text (out +++ text [c1])
            end
          else scan view len rest1 Text (out +++ text [c1])
      | Tag false acc =>
          if isClose c1 then
            match rest1 with
            | c2 :: rest2 =>
                if isClose c2 then
                  match renderTag acc view with
                  | inl e => inl e
                  | inr piece => scan view len rest2 Text (out +++ piece)
                  end
                else scan view len rest1 (Tag false (acc ++ [c1])) out
            | [] => scan view len rest1 (Tag false (acc ++ [c1])) out
            end
          else scan view len rest1 (Tag false (acc ++ [c1])) out
      | Tag true acc =>
          if isClose c1 then
            match rest1 with
            | c2 :: rest2 =>
                if isClose c2 then
                  match rest2 with
                  | c3 :: rest3 =>
                      if isClose c3 then
                        scan view len rest3 Text
                             (out +++ interpolate false acc view)
                      else scan view len rest1 (Tag true (acc ++ [c1])) out
                  | [] => scan view len rest1 (Tag true (acc ++ [c1])) out
                  end
                else scan view len rest1 (Tag true (acc ++ [c1])) out
            | [] => scan view len rest1 (Tag true (acc ++ [c1])) out
            end
          else scan view len rest1 (Tag true (acc ++ [c1])) out
      end
  end.

(** [Mustache.render(template, view)]: the rendered text, or the error
    thrown. *)
Definition render (template : string) (view : JsVal) : JsError + string :=
  scan view (String.length template) (chars template) Text "".

End Mustache.

(* ------------------------------------------------------------------ *)
(** ** The executor collaborator (package stateful-process-command-proxy) *)

Module ProxyConfig.

(** The configuration object handed to [new StatefulProcessCommandProxy];
    the plugin passes it on without looking inside. *)
Record t := new {
  name : string;
  max : nat;
  min : nat;
  idleTimeoutMS : nat;
  processCommand : string;
  processArgs : list string;
  processCwd : string
}.

End ProxyConfig.

(** One entry of the array [executeCommands] fulfils with. *)
Record CmdResult := { command : string; stdout : string; stderr : string }.

(** The promise [executeCommands] returns, by how it ends. *)
Inductive ExecPromise :=
| ExecFulfilled (cmdResultsArray : list CmdResult)
| ExecRejected (error : JsError)
| ExecPending.

(** An executor instance: [executeCommands(commands)] returns a promise, or
    throws before returning one. *)
Record StatefulProcessCommandProxy := {
  executeCommands : list string -> JsError + ExecPromise
}.

(** What a [commandGenerator] hands back: an array of commands, nothing
    ([undefined], as of a function that returns no value), or [null]. *)
Inductive Generated :=
| GenNothing
| GenArray (commands : list string)
| GenNull.

Definition CommandGenerator : Type := IoEvent.t -> JsError + Generated.

(** ["..." + output] for a generator's output. *)
Definition generatedToString (g : Generated) : string :=
  match g with
  | GenNothing => "undefined"
  | GenArray commands => join "," commands
  | GenNull => "null"
  end.

(* ------------------------------------------------------------------ *)
(** ** Plugin object and configuration *)

Record ShellExecReactorPlugin := {
  _pluginId : string;
  _reactorId : string;
  _statefulProcessCommandProxy : option StatefulProcessCommandProxy;
  _commandGenerator : option CommandGenerator;
  _commandTemplates : option (list string)
}.

(** [pluginConfig.statefulProcessCommandProxy]: [config] and [instance]
    are [None] when undefined or null. *)
Record ProxySource := {
  config : option ProxyConfig.t;
  instance : option StatefulProcessCommandProxy
}.

(** [pluginConfig].  [commandGenerator] is [None] unless it is a function;
    [commandTemplates] is [None] when undefined or null. *)
Record PluginConfig := {
  statefulProcessCommandProxy : option ProxySource;
  commandGenerator : option CommandGenerator;
  commandTemplates : option (list string)
}.

(* ------------------------------------------------------------------ *)
(** ** Heap, trace and the [Js] monad *)

(** The two callbacks the constructor hands to [fs.stat]. *)
Inductive StatCallback :=
| ProbeCommandGenerator
| ProbeCommandTemplates.

(** A call made to a collaborator or to one of the owner's callbacks. *)
Inductive Call :=
| LogFunction (severity origin message : string)
| ErrorCallback (errorMessage : string) (error : JsError)
| InitializedCallback (pluginId : string)
| NewStatefulProcessCommandProxy (config : ProxyConfig.t)
| FsStat (callback : StatCallback)
| MustacheRender (template : string) (view : JsVal)
| CommandGeneratorCall (ioEvent : IoEvent.t)
| ExecuteCommands (commands : list string).

(** The promise [react] returns.  It is rejected with a [ReactorResult]
    by [reject(...)], or with the raw error when the function given to
    [new Promise] throws. *)
Inductive PromiseState :=
| Pending
| Fulfilled (result : ReactorResult.t)
| Rejected (result : ReactorResult.t)
| RejectedError (error : JsError).

Record Heap := {
  this : ShellExecReactorPlugin;
  promise : PromiseState;
  awaited : option (ExecPromise * (ShellExecReactorPlugin * IoEvent.t));
  calls : list Call
}.

(** How a statement ends. *)
Inductive Completion (A : Type) :=
| Normal (value : A)
| Throw (error : JsError).

Arguments Normal {A} value.
Arguments Throw {A} error.

Definition Js (A : Type) : Type := Heap -> Completion A * Heap.

Definition ret {A : Type} (a : A) : Js A := fun h => (Normal a, h).

Definition bind {A B : Type} (m : Js A) (k : A -> Js B) : Js B :=
  fun h =>
    match m h with
    | (Normal a, h') => k a h'
    | (Throw e, h') => (Throw e, h')
    end.

Definition throw {A : Type} (e : JsError) : Js A := fun h => (Throw e, h).

(** [try { body } catch (e) { handler }]: what [body] did to the heap before
    it threw stays done. *)
Definition tryCatch {A : Type} (body : Js A) (handler : JsError -> Js A) : Js A :=
  fun h =>
    match body h with
    | (Normal a, h') => (Normal a, h')
    | (Throw e, h') => handler e h'
    end.

Declare Scope js_scope.
Delimit Scope js_scope with js.
Bind Scope js_scope with Js.

Notation "x <- c1 ;; c2" := (bind c1 (fun x => c2))
  (at level 61, c1 at next level, right associativity) : js_scope.
Notation "c1 ;; c2" := (bind c1 (fun _ => c2))
  (at level 61, right associativity) : js_scope.

Open Scope js_scope.

Definition getThis : Js ShellExecReactorPlugin := fun h => (Normal (this h), h).

Definition setThis (f : ShellExecReactorPlugin -> ShellExecReactorPlugin) : Js unit :=
  fun h => (Normal tt,
            {| this := f (this h); promise := promise h;
               awaited := awaited h; calls := calls h |}).

(** Record a call in the trace. *)
Definition call (c : Call) : Js unit :=
  fun h => (Normal tt,
            {| this := this h; promise := promise h;
               awaited := awaited h; calls := calls h ++ [c] |}).

(** A promise keeps the first state it is settled with. *)
Definition settleState (s : PromiseState) (p : PromiseState) : PromiseState :=
  match p with
  | Pending => s
  | _ => p
  end.

Definition settle (s : PromiseState) : Js unit :=
  fun h => (Normal tt,
            {| this := this h; promise := settleState s (promise h);
               awaited := awaited h; calls := calls h |}).

Definition resolve (result : ReactorResult.t) : Js unit := settle (Fulfilled result).
Definition reject (result : ReactorResult.t) : Js unit := settle (Rejected result).

(** [new Promise(executor)]: a fresh pending promise; the executor runs at
    once, and an exception leaving it rejects the promise. *)
Definition newPromise (executor : Js unit) : Js unit :=
  fun h =>
    match executor {| this := this h; promise := Pending;
                      awaited := None; calls := calls h |} with
    | (Normal _, h') => (Normal tt, h')
    | (Throw e, h') => settle (RejectedError e) h'
    end.

(** [p.then(...).catch(...)]: the two callbacks wait for [p] to settle;
    they are closures over [self] and [ioEvent]. *)
Definition registerReactions (p : ExecPromise) (self : ShellExecReactorPlugin)
           (ioEvent : IoEvent.t) : Js unit :=
  fun h => (Normal tt,
            {| this := this h; promise := promise h;
               awaited := Some (p, (self, ioEvent)); calls := calls h |}).

(** [for (let x of xs) { body }] *)
Fixpoint forOf {A : Type} (xs : list A) (body : A -> Js unit) : Js unit :=
  match xs with
  | [] => ret tt
  | x :: rest => body x ;; forOf rest body
  end.

(* ------------------------------------------------------------------ *)
(** ** Sample collaborators and plugins

    Concrete values on which the properties below are instantiated. *)

(** An event for the file [/a/b/c.txt]. *)
Definition sampleEvent : IoEvent.t :=
  IoEvent.new "0b5fd1b0-1" "add" "/a/b/c.txt" VUndefined VUndefined.

(** An executor that accepts every batch and reports each command back
    with empty output. *)
Definition acceptingProxy : StatefulProcessCommandProxy :=
  {| executeCommands := fun commands =>
       inr (ExecFulfilled
              (map (fun c => {| command := c; stdout := ""; stderr := "" |})
                   commands)) |}.

(** A [StatefulProcessCommandProxy] constructor that always succeeds. *)
Definition sampleNewProxy (cfg : ProxyConfig.t)
  : JsError + StatefulProcessCommandProxy :=
  inr acceptingProxy.

Definition generatorAB : CommandGenerator :=
  fun _ => inr (GenArray ["cmdA"; "cmdB"]).

Definition generatorThrows : CommandGenerator :=
  fun _ => inl (Error "boom").


Definition samplePlugin (templates : option (list string))
           (generator : option CommandGenerator) : ShellExecReactorPlugin :=
  {| _pluginId := "shellExec1"; _reactorId := "reactor1";
     _statefulProcessCommandProxy := Some acceptingProxy;
     _commandGenerator := generator;
     _commandTemplates := templates |}.

(** Only the template of the specification's example, with the key
    [event]. *)
Definition pluginEventKey : ShellExecReactorPlugin :=
  samplePlugin (Some ["echo {{event.filename}}"]) None.

(** The same template with the key the plugin uses, [ioEvent]. *)
Definition pluginIoEventKey : ShellExecReactorPlugin :=
  samplePlugin (Some ["echo {{ioEvent.filename}}"]) None.

(** A first template with an unclosed tag, a second one that renders, and
    a generator. *)
Definition pluginFailingTemplate : ShellExecReactorPlugin :=
  samplePlugin (Some ["echo {{ioEvent.filename"; "ls {{{ioEvent.parentPath}}}"])
               (Some generatorAB).

(** A template that renders, and a generator that throws. *)
Definition pluginThrowingGenerator : ShellExecReactorPlugin :=
  samplePlugin (Some ["echo {{ioEvent.filename}}"]) (Some generatorThrows).


(** A configuration that binds [acceptingProxy] as an existing instance. *)
Definition sampleConfig (generator : option CommandGenerator)
           (templates : option (list string)) : PluginConfig :=
  {| statefulProcessCommandProxy :=
       Some {| config := None; instance := Some acceptingProxy |};
     commandGenerator := generator;
     commandTemplates := templates |}.

(** An executor whose promise is rejected for every batch. *)
Definition rejectingProxy : StatefulProcessCommandProxy :=
  {| executeCommands := fun _ => inr (ExecRejected (Error "exit status 1")) |}.

(** An executor whose [executeCommands] throws before returning a
    promise. *)
Definition throwingProxy : StatefulProcessCommandProxy :=
  {| executeCommands := fun _ => inl (Error "pool is shut down") |}.

(** An executor whose promise never settles. *)
Definition pendingProxy : StatefulProcessCommandProxy :=
  {| executeCommands := fun _ => inr ExecPending |}.

(** The executor configuration of the plugin's documentation. *)
Definition sampleProxyConfig : ProxyConfig.t :=
  ProxyConfig.new "whateverYouWant" 2 1 3000 "/bin/bash" ["-s"] "./".

(** A [StatefulProcessCommandProxy] constructor that always throws. *)
Definition failingNewProxy (cfg : ProxyConfig.t)
  : JsError + StatefulProcessCommandProxy :=
  inl (Error "invalid pool configuration").

(** [samplePlugin] with another executor, or none. *)
Definition samplePluginOn (proxy : option StatefulProcessCommandProxy)
           (templates : option (list string))
           (generator : option CommandGenerator) : ShellExecReactorPlugin :=
  {| _pluginId := "shellExec1"; _reactorId := "reactor1";
     _statefulProcessCommandProxy := proxy;
     _commandGenerator := generator;
     _commandTemplates := templates |}.

(** A configuration with templates and an executor [config] (no
    [instance]); with [failingNewProxy] the executor cannot be built. *)
Definition configWithExecutorConfig : PluginConfig :=
  {| statefulProcessCommandProxy :=
       Some {| config := Some sampleProxyConfig; instance := None |};
     commandGenerator := None;
     commandTemplates := Some ["echo {{ioEvent.filename}}"] |}.

(* ------------------------------------------------------------------ *)
(** ** The plugin: [ShellExecReactorPlugin] *)

Section Plugin.

(** [Mustache.render], as the plugin calls it. *)
Variable Mustache_render : string -> JsVal -> JsError + string.

(** [new StatefulProcessCommandProxy(config)]: the instance built, or the
    error its constructor throws. *)
Variable newStatefulProcessCommandProxy :
  ProxyConfig.t -> JsError + StatefulProcessCommandProxy.

(** [this.__proto__.constructor.name] *)
Definition className : string := "ShellExecReactorPlugin".

Definition getId (self : ShellExecReactorPlugin) : string := _pluginId self.

Definition _log (self : ShellExecReactorPlugin) (severity message : string)
  : Js unit :=
  call (LogFunction severity
          (className +++ "[" +++ _reactorId self +++ "][" +++ getId self +++ "]")
          message).

Definition _onError (errorMessage : string) (error : JsError) : Js unit :=
  call (ErrorCallback errorMessage error).

(** The prefix every error message of the constructor starts with. *)
Definition errPrefix (self : ShellExecReactorPlugin) : string :=
  className +++ "[" +++ _reactorId self +++ "][" +++ getId self +++ "]".

(** The view object [{'ioEvent': ioEvent}] given to the renderer. *)
Definition templateView (ioEvent : IoEvent.t) : JsVal :=
  VObject [("ioEvent", IoEvent.view ioEvent)].

Definition callMustacheRender (template : string) (view : JsVal) : Js string :=
  call (MustacheRender template view) ;;
  match Mustache_render template view with
  | inl e => throw e
  | inr output => ret output
  end.

Definition callCommandGenerator (self : ShellExecReactorPlugin)
           (ioEvent : IoEvent.t) : Js Generated :=
  match _commandGenerator self with
  | None => throw (TypeError "this._commandGenerator is not a function")
  | Some generator =>
      call (CommandGeneratorCall ioEvent) ;;
      match generator ioEvent with
      | inl e => throw e
      | inr output => ret output
      end
  end.

(** *** The constructor *)

(** The object [new] hands to the constructor, before any assignment. *)
Definition blank : ShellExecReactorPlugin :=
  {| _pluginId := "undefined"; _reactorId := "undefined";
     _statefulProcessCommandProxy := None;
     _commandGenerator := None; _commandTemplates := None |}.

Definition setIds (pluginId reactorId : string) : Js unit :=
  setThis (fun o =>
    {| _pluginId := pluginId; _reactorId := reactorId;
       _statefulProcessCommandProxy := _statefulProcessCommandProxy o;
       _commandGenerator := _commandGenerator o;
       _commandTemplates := _commandTemplates o |}).

Definition setProxy (p : StatefulProcessCommandProxy) : Js unit :=
  setThis (fun o =>
    {| _pluginId := _pluginId o; _reactorId := _reactorId o;
       _statefulProcessCommandProxy := Some p;
       _commandGenerator := _commandGenerator o;
       _commandTemplates := _commandTemplates o |}).

Definition setCommandGenerator (g : CommandGenerator) : Js unit :=
  setThis (fun o =>
    {| _pluginId := _pluginId o; _reactorId := _reactorId o;
       _statefulProcessCommandProxy := _statefulProcessCommandProxy o;
       _commandGenerator := Some g;
       _commandTemplates := _commandTemplates o |}).

Definition setCommandTemplates (ts : list string) : Js unit :=
  setThis (fun o =>
    {| _pluginId := _pluginId o; _reactorId := _reactorId o;
       _statefulProcessCommandProxy := _statefulProcessCommandProxy o;
       _commandGenerator := _commandGenerator o;
       _commandTemplates := Some ts |}).

(** Log [errMsg] at severity error and hand it to the error callback:
    the body of every [catch] of the constructor but one. *)
Definition reportError (what : string) (e : JsError) : Js unit :=
  self <- getThis ;;
  let errMsg := errPrefix self +++ what +++ toString e in
  _log self "error" errMsg ;;
  _onError errMsg e.

(** The executor part: build from [config], else bind [instance], else
    throw. *)
Definition bindExecutor (pluginConfig : PluginConfig) : Js unit :=
  match statefulProcessCommandProxy pluginConfig with
  | None => throw (TypeError "Cannot read property 'config' of undefined")
  | Some source =>
      match config source with
      | Some cfg =>
          tryCatch
            (call (NewStatefulProcessCommandProxy cfg) ;;
             match newStatefulProcessCommandProxy cfg with
             | inl e => throw e
             | inr p => setProxy p
             end)
            (reportError " error constructing StatefulProcessCommandProxy: ")
      | None =>
          match instance source with
          | Some p => setProxy p
          | None =>
              throw (Error "pluginConfig.statefulProcessCommandProxy must contain either 'instance' or 'config'")
          end
      end
  end.

Definition handleCommandGenerator (pluginConfig : PluginConfig) : Js unit :=
  match commandGenerator pluginConfig with
  | Some g =>
      setCommandGenerator g ;;
      tryCatch (call (FsStat ProbeCommandGenerator))
               (reportError " error pre-processing commandGenerator: ")
  | None => ret tt
  end.

Definition handleCommandTemplates (pluginConfig : PluginConfig) : Js unit :=
  match commandTemplates pluginConfig with
  | Some ts =>
      tryCatch (setCommandTemplates ts ;;
                call (FsStat ProbeCommandTemplates))
               (reportError " error pre-processing Mustache commandTemplates: ") ;;
      self <- getThis ;;
      call (InitializedCallback (getId self))
  | None => ret tt
  end.

(** [new ShellExecReactorPlugin(pluginId, reactorId, logFunction,
    errorCallback, initializedCallback, pluginConfig)].  The three
    callbacks are the owner's; calls to them are recorded in the trace. *)
Definition constructor (pluginId reactorId : string)
           (pluginConfig : PluginConfig) : Js unit :=
  tryCatch
    (setIds pluginId reactorId ;;
     bindExecutor pluginConfig ;;
     handleCommandGenerator pluginConfig ;;
     handleCommandTemplates pluginConfig)
    (reportError " unexpected error: ").

(** The heap [new] starts the constructor in. *)
Definition freshHeap : Heap :=
  {| this := blank; promise := Pending; awaited := None; calls := [] |}.

(** The callback of the first [fs.stat]: try the generator on a probe
    event.  It runs after the constructor has returned. *)
Definition probeCommandGenerator (err : option JsError) (stats : JsVal)
           (uuid : string) : Js unit :=
  match err with
  | Some e => throw e
  | None =>
      self <- getThis ;;
      let ioEvent :=
        IoEvent.new uuid "testEventType" "/test/full/path/tothing.zip"
                    stats VUndefined in
      output <- callCommandGenerator self ioEvent ;;
      _log self "info"
           ("commandGenerator() function returned test command to exec: "
              +++ generatedToString output)
  end.

(** The callback of the second [fs.stat]: render every template against
    a probe event; a failure is logged and the loop goes on. *)
Definition probeCommandTemplates (err : option JsError) (stats : JsVal)
           (uuid : string) : Js unit :=
  match err with
  | Some e => throw e
  | None =>
      self <- getThis ;;
      let ioEvent :=
        IoEvent.new uuid "testEventType" "/test/full/path/tothing"
                    stats VUndefined in
      match _commandTemplates self with
      | None => throw (TypeError "this._commandTemplates is not iterable")
      | Some templates =>
          forOf templates (fun template =>
            tryCatch
              (output <- callMustacheRender template (templateView ioEvent) ;;
               _log self "info"
                    ("commandTemplate[" +++ template +++ "] rendered to: "
                       +++ output))
              (fun e =>
                 _log self "error"
                      (errPrefix self
                         +++ " error pre-testing Mustache commandTemplate["
                         +++ template +++ "]: " +++ toString e)))
      end
  end.

(** *** [react] *)

(** The result [reject] gets when a template fails to render. *)
Definition renderFailure (self : ShellExecReactorPlugin) (ioEvent : IoEvent.t)
           (template : string) (e : JsError) : ReactorResult.t :=
  ReactorResult.new false (getId self) (_reactorId self) ioEvent
    ("Error generating command from mustache template: " +++ template
       +++ " " +++ toString e)
    (Some e).

(** The result [reject] gets when the generator throws. *)
Definition generatorFailure (self : ShellExecReactorPlugin)
           (ioEvent : IoEvent.t) (e : JsError) : ReactorResult.t :=
  ReactorResult.new false (getId self) (_reactorId self) ioEvent
    ("Error generating command from command generator function: "
       +++ toString e)
    (Some e).

Definition executionFailure (self : ShellExecReactorPlugin)
           (ioEvent : IoEvent.t) (error : JsError) : ReactorResult.t :=
  ReactorResult.new false (getId self) (_reactorId self) ioEvent
    ("Error executing commands: " +++ toString error)
    (Some error).

Definition executionSuccess (self : ShellExecReactorPlugin)
           (ioEvent : IoEvent.t) : ReactorResult.t :=
  ReactorResult.new true (getId self) (_reactorId self) ioEvent
    "Executed commands successfully" None.

(** A string is truthy unless it is empty. *)
Definition truthy (s : string) : bool := negb (String.eqb s "").

(** #1: [for (let template of self._commandTemplates) { try { ... }
    catch(e) { reject(...) } }].  The [catch] calls [reject] and the loop
    goes on to the next template. *)
Fixpoint collectFromTemplates (self : ShellExecReactorPlugin)
         (ioEvent : IoEvent.t) (templates : list string)
         (commandsToExec : list string) : Js (list string) :=
  match templates with
  | [] => ret commandsToExec
  | template :: rest =>
      commandsToExec' <-
        tryCatch
          (commandToExec <- callMustacheRender template (templateView ioEvent) ;;
           if truthy commandToExec
           then ret (commandsToExec ++ [commandToExec])
           else ret commandsToExec)
          (fun e =>
             reject (renderFailure self ioEvent template e) ;;
             ret commandsToExec) ;;
      collectFromTemplates self ioEvent rest commandsToExec'
  end.

(** #2: the generator's commands are concatenated after the templates';
    the [catch] calls [reject] and execution goes on. *)
Definition collectFromGenerator (self : ShellExecReactorPlugin)
           (ioEvent : IoEvent.t) (commandsToExec : list string)
  : Js (list string) :=
  match _commandGenerator self with
  | Some _ =>
      tryCatch
        (generatedCmds <- callCommandGenerator self ioEvent ;;
         match generatedCmds with
         | GenArray cmds =>
             if (0 <? List.length cmds)%nat
             then ret (commandsToExec ++ cmds)
             else ret commandsToExec
         | GenNothing => ret commandsToExec
         | GenNull => ret commandsToExec
         end)
        (fun e =>
           reject (generatorFailure self ioEvent e) ;;
           ret commandsToExec)
  | None => ret commandsToExec
  end.

(** [self._statefulProcessCommandProxy.executeCommands(commandsToExec)] *)
Definition callExecuteCommands (self : ShellExecReactorPlugin)
           (commandsToExec : list string) : Js ExecPromise :=
  match _statefulProcessCommandProxy self with
  | None =>
      throw (TypeError "Cannot read property 'executeCommands' of undefined")
  | Some proxy =>
      call (ExecuteCommands commandsToExec) ;;
      match executeCommands proxy commandsToExec with
      | inl e => throw e
      | inr p => ret p
      end
  end.

(** The first part of the function given to [new Promise]: the log line,
    the template loop (#1) and the generator (#2). *)
Definition collect (self : ShellExecReactorPlugin) (ioEvent : IoEvent.t)
  : Js (list string) :=
  _log self "info"
       ("REACT[" +++ getId self +++ "]() invoked: "
          +++ IoEvent.eventType ioEvent +++ " for: "
          +++ IoEvent.fullPath ioEvent) ;;
  commandsToExec <-
    match _commandTemplates self with
    | Some templates =>
        if (0 <? List.length templates)%nat
        then collectFromTemplates self ioEvent templates []
        else ret []
    | None => ret []
    end ;;
  collectFromGenerator self ioEvent commandsToExec.

(** The function given to [new Promise] in [react]: collect the
    commands, then (#3) hand them to the executor and register the
    reactions on the promise it returns. *)
Definition reactExecutor (self : ShellExecReactorPlugin) (ioEvent : IoEvent.t)
  : Js unit :=
  commandsToExec <- collect self ioEvent ;;
  p <- callExecuteCommands self commandsToExec ;;
  registerReactions p self ioEvent.

(** [react(ioEvent)]: the synchronous part, up to the return of the
    promise. *)
Definition react (ioEvent : IoEvent.t) : Js unit :=
  self <- getThis ;;
  newPromise (reactExecutor self ioEvent).

(** The [then] callback. *)
Definition onFulfilled (self : ShellExecReactorPlugin) (ioEvent : IoEvent.t)
           (cmdResultsArray : list CmdResult) : Js unit :=
  forOf cmdResultsArray (fun result =>
    _log self "info"
         ("CmdResult: cmd: " +++ command result +++ " stdout:"
            +++ stdout result +++ " stderr:" +++ stderr result)) ;;
  resolve (executionSuccess self ioEvent).

(** The [catch] callback. *)
Definition onRejected (self : ShellExecReactorPlugin) (ioEvent : IoEvent.t)
           (error : JsError) : Js unit :=
  reject (executionFailure self ioEvent error).

(** The reactions registered on the executor's promise, run once that
    promise has settled; [catch] also receives what [then] throws.
    Nothing runs while the executor's promise is pending. *)
Definition runReactions : Js unit :=
  fun h =>
    match awaited h with
    | Some (ExecFulfilled cmdResultsArray, (self, ioEvent)) =>
        tryCatch (onFulfilled self ioEvent cmdResultsArray)
                 (onRejected self ioEvent) h
    | Some (ExecRejected error, (self, ioEvent)) =>
        onRejected self ioEvent error h
    | Some (ExecPending, _) => (Normal tt, h)
    | None => (Normal tt, h)
    end.

(** A computation followed by the reactions to the executor's promise. *)
Definition withReactions (m : Js unit) : Js unit := m ;; runReactions.

(** The heap in which [react] starts for the plugin [self]. *)
Definition heapOf (self : ShellExecReactorPlugin) : Heap :=
  {| this := self; promise := Pending; awaited := None; calls := [] |}.

(** One whole reaction of the plugin [self] to [ioEvent]: the call of
    [react] and then the reactions to the executor's promise. *)
Definition reaction (self : ShellExecReactorPlugin) (ioEvent : IoEvent.t)
  : Completion unit * Heap :=
  withReactions (react ioEvent) (heapOf self).

(** *** Observations on a trace *)

(** The command batches handed to the executor, in order. *)
Definition submitted (trace : list Call) : list (list string) :=
  flat_map (fun c => match c with
                     | ExecuteCommands commands => [commands]
                     | _ => []
                     end) trace.

(** The templates handed to the renderer, in order. *)
Definition renderedTemplates (trace : list Call) : list string :=
  flat_map (fun c => match c with
                     | MustacheRender template _ => [template]
                     | _ => []
                     end) trace.

(** The events the generator was called with. *)
Definition generatorCalls (trace : list Call) : list IoEvent.t :=
  flat_map (fun c => match c with
                     | CommandGeneratorCall ioEvent => [ioEvent]
                     | _ => []
                     end) trace.

(** The plugin ids the initialized callback was called with. *)
Definition initializedCalls (trace : list Call) : list string :=
  flat_map (fun c => match c with
                     | InitializedCallback pluginId => [pluginId]
                     | _ => []
                     end) trace.

(** The calls of the error callback. *)
Definition errorCalls (trace : list Call) : list (string * JsError) :=
  flat_map (fun c => match c with
                     | ErrorCallback m e => [(m, e)]
                     | _ => []
                     end) trace.

(** The severities the log function was called with. *)
Definition logSeverities (trace : list Call) : list string :=
  flat_map (fun c => match c with
                     | LogFunction severity _ _ => [severity]
                     | _ => []
                     end) trace.

(** The configurations executors were constructed from. *)
Definition constructedProxies (trace : list Call) : list ProxyConfig.t :=
  flat_map (fun c => match c with
                     | NewStatefulProcessCommandProxy cfg => [cfg]
                     | _ => []
                     end) trace.

(** *** What one reaction computes, as plain functions

    These describe the loops of [react] without the heap; the lemmas
    below relate them to the code. *)

Definition templatesOf (self : ShellExecReactorPlugin) : list string :=
  match _commandTemplates self with
  | Some templates => templates
  | None => []
  end.

(** The commands the template loop collects: the outputs that rendered
    and are not empty, in the order of the templates. *)
Definition commandsFromTemplates (ioEvent : IoEvent.t) (templates : list string)
  : list string :=
  flat_map (fun template =>
              match Mustache_render template (templateView ioEvent) with
              | inr output => if truthy output then [output] else []
              | inl _ => []
              end) templates.

(** The [reject] calls the template loop makes, in order. *)
Definition renderRejections (self : ShellExecReactorPlugin)
           (ioEvent : IoEvent.t) (templates : list string) : list PromiseState :=
  flat_map (fun template =>
              match Mustache_render template (templateView ioEvent) with
              | inr _ => []
              | inl e => [Rejected (renderFailure self ioEvent template e)]
              end) templates.

Definition renderCalls (ioEvent : IoEvent.t) (templates : list string)
  : list Call :=
  map (fun template => MustacheRender template (templateView ioEvent)) templates.

Definition commandsFromGenerator (self : ShellExecReactorPlugin)
           (ioEvent : IoEvent.t) : list string :=
  match _commandGenerator self with
  | Some generator =>
      match generator ioEvent with
      | inr (GenArray cmds) => cmds
      | _ => []
      end
  | None => []
  end.

Definition generatorRejections (self : ShellExecReactorPlugin)
           (ioEvent : IoEvent.t) : list PromiseState :=
  match _commandGenerator self with
  | Some generator =>
      match generator ioEvent with
      | inl e => [Rejected (generatorFailure self ioEvent e)]
      | inr _ => []
      end
  | None => []
  end.

Definition generatorCall (self : ShellExecReactorPlugin) (ioEvent : IoEvent.t)
  : list Call :=
  match _commandGenerator self with
  | Some _ => [CommandGeneratorCall ioEvent]
  | None => []
  end.

(** The batch [react] hands to the executor. *)
Definition batch (self : ShellExecReactorPlugin) (ioEvent : IoEvent.t)
  : list string :=
  commandsFromTemplates ioEvent (templatesOf self)
    ++ commandsFromGenerator self ioEvent.

(** The [reject] calls made while the batch is collected. *)
Definition collectRejections (self : ShellExecReactorPlugin)
           (ioEvent : IoEvent.t) : list PromiseState :=
  renderRejections self ioEvent (templatesOf self)
    ++ generatorRejections self ioEvent.

(** The calls made up to and including the submission of the batch. *)
Definition collectCalls (self : ShellExecReactorPlugin) (ioEvent : IoEvent.t)
  : list Call :=
  LogFunction "info"
    (className +++ "[" +++ _reactorId self +++ "][" +++ getId self +++ "]")
    ("REACT[" +++ getId self +++ "]() invoked: "
       +++ IoEvent.eventType ioEvent +++ " for: "
       +++ IoEvent.fullPath ioEvent)
  :: renderCalls ioEvent (templatesOf self) ++ generatorCall self ioEvent.

(** A promise after a sequence of settle calls. *)
Definition settleAll (attempts : list PromiseState) (p : PromiseState)
  : PromiseState :=
  fold_left (fun p s => settleState s p) attempts p.

Definition resultLog (self : ShellExecReactorPlugin) (result : CmdResult) : Call :=
  LogFunction "info"
    (className +++ "[" +++ _reactorId self +++ "][" +++ getId self +++ "]")
    ("CmdResult: cmd: " +++ command result +++ " stdout:"
       +++ stdout result +++ " stderr:" +++ stderr result).

(** The heap after the collection phase. *)
Definition collected (self : ShellExecReactorPlugin) (ioEvent : IoEvent.t)
           (h : Heap) : Heap :=
  {| this := this h;
     promise := settleAll (collectRejections self ioEvent) (promise h);
     awaited := awaited h;
     calls := calls h ++ collectCalls self ioEvent |}.

(** The settle calls that follow the submission of the batch to [proxy]:
    the raw error when [executeCommands] throws, else what the [then] or
    the [catch] callback does once the executor's promise has settled. *)
Definition executionSettles (self : ShellExecReactorPlugin)
           (ioEvent : IoEvent.t) (proxy : StatefulProcessCommandProxy)
  : list PromiseState :=
  match executeCommands proxy (batch self ioEvent) with
  | inl e => [RejectedError e]
  | inr (ExecFulfilled _) => [Fulfilled (executionSuccess self ioEvent)]
  | inr (ExecRejected error) => [Rejected (executionFailure self ioEvent error)]
  | inr ExecPending => []
  end.

(** The log lines of the [then] callback. *)
Definition executionLogs (self : ShellExecReactorPlugin)
           (ioEvent : IoEvent.t) (proxy : StatefulProcessCommandProxy)
  : list Call :=
  match executeCommands proxy (batch self ioEvent) with
  | inr (ExecFulfilled cmdResultsArray) => map (resultLog self) cmdResultsArray
  | _ => []
  end.

(** [s] settles a promise with a well-formed result about [ioEvent]:
    fulfilled with a success that has no error, or rejected with a failure
    that carries one. *)
Definition resultAbout (ioEvent : IoEvent.t) (s : PromiseState) : Prop :=
  match s with
  | Fulfilled result =>
      ReactorResult.ioEvent result = ioEvent
      /\ ReactorResult.isSuccess result = true
      /\ ReactorResult.error result = None
  | Rejected result =>
      ReactorResult.ioEvent result = ioEvent
      /\ ReactorResult.isSuccess result = false
      /\ ReactorResult.error result <> None
  | _ => False
  end.

(** The error thrown when neither [config] nor [instance] is given. *)
Definition missingExecutor : JsError :=
  Error "pluginConfig.statefulProcessCommandProxy must contain either 'instance' or 'config'".

(** *** Conditions and invariants used by the further properties *)

(** Nothing fails while the batch is collected: every configured template
    renders for the event, and the generator, if any, returns. *)
Definition nothingFails (self : ShellExecReactorPlugin) (ioEvent : IoEvent.t)
  : Prop :=
  Forall (fun template =>
            exists output,
              Mustache_render template (templateView ioEvent) = inr output)
         (templatesOf self)
  /\ (forall generator,
        _commandGenerator self = Some generator ->
        exists generated, generator ioEvent = inr generated).

(** The calls a reaction may make: renders, the generator call, the
    submission, and log lines at severity info under the plugin's origin.
    The error callback, the initialized callback, the executor's
    constructor and [fs.stat] are not among them. *)
Definition reactionCall (self : ShellExecReactorPlugin) (c : Call) : Prop :=
  match c with
  | LogFunction severity origin _ =>
      severity = "info"
      /\ origin = className +++ "[" +++ _reactorId self +++ "][" +++ getId self +++ "]"
  | MustacheRender _ _ => True
  | CommandGeneratorCall _ => True
  | ExecuteCommands _ => True
  | ErrorCallback _ _ => False
  | InitializedCallback _ => False
  | NewStatefulProcessCommandProxy _ => False
  | FsStat _ => False
  end.

(** The probe events of the constructor's two [fs.stat] callbacks. *)
Definition generatorProbeEvent (uuid : string) (stats : JsVal) : IoEvent.t :=
  IoEvent.new uuid "testEventType" "/test/full/path/tothing.zip" stats VUndefined.

Definition templatesProbeEvent (uuid : string) (stats : JsVal) : IoEvent.t :=
  IoEvent.new uuid "testEventType" "/test/full/path/tothing" stats VUndefined.

(** The two calls the templates probe makes for one template: the render,
    then a log line at severity info with the output, or at severity error
    with the failure. *)
Definition probeTemplateCalls (self : ShellExecReactorPlugin)
           (ioEvent : IoEvent.t) (template : string) : list Call :=
  [ MustacheRender template (templateView ioEvent);
    match Mustache_render template (templateView ioEvent) with
    | inr output =>
        LogFunction "info"
          (className +++ "[" +++ _reactorId self +++ "][" +++ getId self +++ "]")
          ("commandTemplate[" +++ template +++ "] rendered to: " +++ output)
    | inl e =>
        LogFunction "error"
          (className +++ "[" +++ _reactorId self +++ "][" +++ getId self +++ "]")
          (errPrefix self +++ " error pre-testing Mustache commandTemplate["
             +++ template +++ "]: " +++ toString e)
    end ].

(* ------------------------------------------------------------------ *)
(** ** Lemmas on the promise *)

Lemma settleState_settled s p : p <> Pending -> settleState s p = p.
Proof. destruct p; simpl; congruence. Qed.

Lemma settleAll_settled attempts : forall p,
  p <> Pending -> settleAll attempts p = p.
Proof.
  induction attempts as [|s rest IH]; intros p Hp; simpl; [reflexivity|].
  rewrite (settleState_settled s p Hp). apply IH, Hp.
Qed.

Lemma settleAll_app xs ys p :
  settleAll (xs ++ ys) p = settleAll ys (settleAll xs p).
Proof. unfold settleAll. apply fold_left_app. Qed.

(** The first settle call decides. *)
Lemma settleAll_first s rest :
  s <> Pending -> settleAll (s :: rest) Pending = s.
Proof. intros Hs. simpl. apply settleAll_settled, Hs. Qed.

(* ------------------------------------------------------------------ *)
(** ** What the loops of [react] do to the heap *)

Lemma collectFromTemplates_run self ioEvent templates :
  forall commandsToExec h,
    collectFromTemplates self ioEvent templates commandsToExec h =
    (Normal (commandsToExec ++ commandsFromTemplates ioEvent templates),
     {| this := this h;
        promise := settleAll (renderRejections self ioEvent templates) (promise h);
        awaited := awaited h;
        calls := calls h ++ renderCalls ioEvent templates |}).
Proof.
  induction templates as [|template rest IH]; intros acc h.
  - destruct h; simpl. unfold ret. now rewrite !app_nil_r.
  - cbn [collectFromTemplates commandsFromTemplates renderRejections
         renderCalls flat_map map].
    unfold bind at 1, tryCatch, callMustacheRender, bind, call.
    destruct (Mustache_render template (templateView ioEvent)) as [e|output];
      cbn.
    + rewrite IH. cbn. now rewrite <- app_assoc.
    + destruct (truthy output); cbn; rewrite IH; cbn;
        now rewrite <- ?app_assoc.
Qed.

Lemma collectFromGenerator_run self ioEvent commandsToExec h :
  collectFromGenerator self ioEvent commandsToExec h =
  (Normal (commandsToExec ++ commandsFromGenerator self ioEvent),
   {| this := this h;
      promise := settleAll (generatorRejections self ioEvent) (promise h);
      awaited := awaited h;
      calls := calls h ++ generatorCall self ioEvent |}).
Proof.
  unfold collectFromGenerator, callCommandGenerator, commandsFromGenerator,
    generatorRejections, generatorCall.
  destruct (_commandGenerator self) as [generator|].
  - unfold tryCatch, bind, call.
    destruct (generator ioEvent) as [e|[|cmds|]]; cbn;
      rewrite ?app_nil_r; try reflexivity.
    destruct cmds; cbn; now rewrite ?app_nil_r.
  - destruct h; cbn. unfold ret. now rewrite !app_nil_r.
Qed.

Lemma collect_run self ioEvent h :
  collect self ioEvent h = (Normal (batch self ioEvent), collected self ioEvent h).
Proof.
  unfold collect, collected, batch, collectRejections, collectCalls, templatesOf.
  unfold bind at 1, _log, call. cbn.
  destruct (_commandTemplates self) as [[|template rest]|]; cbn -[collectFromTemplates].
  - unfold bind, ret. rewrite collectFromGenerator_run. cbn.
    now rewrite <- app_assoc.
  - unfold bind. rewrite collectFromTemplates_run, collectFromGenerator_run.
    cbn -[commandsFromTemplates renderRejections renderCalls].
    rewrite settleAll_app. f_equal. f_equal.
    rewrite <- !app_assoc. reflexivity.
  - unfold bind, ret. rewrite collectFromGenerator_run. cbn.
    now rewrite <- app_assoc.
Qed.

Lemma forOf_log self (results : list CmdResult) : forall h,
  forOf results (fun result =>
    _log self "info"
         ("CmdResult: cmd: " +++ command result +++ " stdout:"
            +++ stdout result +++ " stderr:" +++ stderr result)) h =
  (Normal tt,
   {| this := this h; promise := promise h; awaited := awaited h;
      calls := calls h ++ map (resultLog self) results |}).
Proof.
  induction results as [|result rest IH]; intros h.
  - destruct h; cbn. unfold ret. now rewrite app_nil_r.
  - cbn [forOf map]. unfold bind at 1, _log, call. rewrite IH. cbn.
    now rewrite <- app_assoc.
Qed.

(** Run a reaction up to the call of [executeCommands]: the collection
    phase is replaced by its description. *)
Ltac run_collection :=
  unfold reaction, withReactions, react, heapOf, newPromise, reactExecutor,
    getThis;
  unfold bind at 1 2; cbn [this promise awaited calls];
  unfold bind at 1; rewrite collect_run;
  unfold callExecuteCommands, runReactions.

(** A reaction completes normally, whatever happens inside it. *)
Lemma reaction_normal self ioEvent :
  fst (reaction self ioEvent) = Normal tt.
Proof.
  run_collection.
  destruct (_statefulProcessCommandProxy self) as [proxy|]; cbn;
    [|reflexivity].
  destruct (executeCommands proxy (batch self ioEvent)) as [e|[results|error|]];
    cbn; try reflexivity.
  unfold tryCatch, onFulfilled, bind. rewrite forOf_log. reflexivity.
Qed.

(** The promise of a reaction: the first of the settle calls made while
    collecting and after submitting. *)
Lemma reaction_promise self ioEvent proxy :
  _statefulProcessCommandProxy self = Some proxy ->
  promise (snd (reaction self ioEvent)) =
  settleAll (collectRejections self ioEvent ++ executionSettles self ioEvent proxy)
            Pending.
Proof.
  intros Hproxy.
  run_collection. unfold executionSettles.
  rewrite Hproxy, settleAll_app. cbn.
  destruct (executeCommands proxy (batch self ioEvent)) as [e|[results|error|]];
    cbn; try reflexivity.
  unfold tryCatch, onFulfilled, bind. rewrite forOf_log. reflexivity.
Qed.

(** The trace of a reaction: the collection calls, the one submission of
    the batch, and the log lines for the results. *)
Lemma reaction_calls self ioEvent proxy :
  _statefulProcessCommandProxy self = Some proxy ->
  calls (snd (reaction self ioEvent)) =
  collectCalls self ioEvent
    ++ ExecuteCommands (batch self ioEvent) :: executionLogs self ioEvent proxy.
Proof.
  intros Hproxy.
  run_collection. unfold executionLogs.
  rewrite Hproxy. cbn.
  destruct (executeCommands proxy (batch self ioEvent)) as [e|[results|error|]];
    cbn; try reflexivity.
  unfold tryCatch, onFulfilled, bind. rewrite forOf_log. cbn.
  now rewrite <- app_assoc.
Qed.

(* ------------------------------------------------------------------ *)
(** ** Reading the trace of a reaction *)

Lemma submitted_renderCalls ioEvent templates :
  submitted (renderCalls ioEvent templates) = [].
Proof. induction templates; cbn; auto. Qed.

Lemma submitted_resultLogs self results :
  submitted (map (resultLog self) results) = [].
Proof. induction results; cbn; auto. Qed.

Lemma renderedTemplates_renderCalls ioEvent templates :
  renderedTemplates (renderCalls ioEvent templates) = templates.
Proof. induction templates; cbn; [|f_equal]; auto. Qed.




Lemma executionLogs_cases self ioEvent proxy :
  exists results, executionLogs self ioEvent proxy = map (resultLog self) results.
Proof.
  unfold executionLogs.
  destruct (executeCommands proxy (batch self ioEvent)) as [e|[results|error|]];
    [exists [] | exists results | exists [] | exists []]; reflexivity.
Qed.

(** Exactly one batch is handed to the executor in a reaction, and it is
    [batch]: whatever was rejected on the way. *)
Lemma reaction_submitted self ioEvent proxy :
  _statefulProcessCommandProxy self = Some proxy ->
  submitted (calls (snd (reaction self ioEvent))) = [batch self ioEvent].
Proof.
  intros Hproxy. rewrite (reaction_calls self ioEvent proxy Hproxy).
  destruct (executionLogs_cases self ioEvent proxy) as [results ->].
  unfold submitted at 1. rewrite flat_map_app. cbn [flat_map].
  fold (submitted (collectCalls self ioEvent)).
  fold (submitted (map (resultLog self) results)).
  rewrite submitted_resultLogs. unfold collectCalls, submitted at 1.
  cbn [flat_map]. rewrite flat_map_app.
  fold (submitted (renderCalls ioEvent (templatesOf self))).
  rewrite submitted_renderCalls.
  unfold generatorCall. destruct (_commandGenerator self); reflexivity.
Qed.



(* ------------------------------------------------------------------ *)
(** ** Results of a reaction *)

Lemma resultAbout_settled ioEvent s : resultAbout ioEvent s -> s <> Pending.
Proof. destruct s; cbn; intros H; [contradiction | discriminate ..]. Qed.

Lemma renderRejections_about self ioEvent templates :
  Forall (resultAbout ioEvent) (renderRejections self ioEvent templates).
Proof.
  unfold renderRejections.
  induction templates as [|template rest IH]; cbn; [constructor|].
  destruct (Mustache_render template (templateView ioEvent)); cbn; auto.
  constructor; auto. cbn. repeat split; discriminate.
Qed.

Lemma generatorRejections_about self ioEvent :
  Forall (resultAbout ioEvent) (generatorRejections self ioEvent).
Proof.
  unfold generatorRejections.
  destruct (_commandGenerator self) as [generator|]; [|constructor].
  destruct (generator ioEvent); constructor; auto.
  cbn. repeat split; discriminate.
Qed.

Lemma collectRejections_about self ioEvent :
  Forall (resultAbout ioEvent) (collectRejections self ioEvent).
Proof.
  unfold collectRejections. apply Forall_app. split.
  - apply renderRejections_about.
  - apply generatorRejections_about.
Qed.

(** Settling a pending promise with a non-empty sequence of well-formed
    results leaves it with one of them. *)
Lemma settleAll_about ioEvent attempts :
  attempts <> [] ->
  Forall (resultAbout ioEvent) attempts ->
  resultAbout ioEvent (settleAll attempts Pending).
Proof.
  destruct attempts as [|s rest]; [congruence|].
  intros _ Hall. inversion Hall as [|? ? Hs Hrest]; subst.
  rewrite settleAll_first; [assumption|].
  eapply resultAbout_settled, Hs.
Qed.

Lemma newPromise_normal executor h : fst (newPromise executor h) = Normal tt.
Proof.
  unfold newPromise.
  destruct (executor _) as [[v|e] h']; reflexivity.
Qed.

Lemma react_normal ioEvent h : fst (react ioEvent h) = Normal tt.
Proof. unfold react, bind, getThis. apply newPromise_normal. Qed.

(** The commands collected from templates that all render. *)
Lemma commandsFromTemplates_rendered ioEvent templates outputs :
  Forall2 (fun template output =>
             Mustache_render template (templateView ioEvent) = inr output)
          templates outputs ->
  commandsFromTemplates ioEvent templates = filter truthy outputs.
Proof.
  induction 1 as [|template output templates outputs Hrender _ IH]; cbn;
    [reflexivity|].
  rewrite Hrender. fold (commandsFromTemplates ioEvent templates).
  rewrite IH. destruct (truthy output); reflexivity.
Qed.

Lemma filter_truthy_all outputs :
  Forall (fun output => output <> "") outputs -> filter truthy outputs = outputs.
Proof.
  induction 1 as [|output outputs Hne _ IH]; cbn; [reflexivity|].
  unfold truthy at 1. destruct (String.eqb_spec output ""); [contradiction|].
  cbn. now rewrite IH.
Qed.


Lemma renderRejections_none self ioEvent templates :
  Forall (fun template =>
            exists output,
              Mustache_render template (templateView ioEvent) = inr output)
         templates ->
  renderRejections self ioEvent templates = [].
Proof.
  induction 1 as [|template templates [output Hrender] _ IH]; cbn;
    [reflexivity|].
  rewrite Hrender. cbn. exact IH.
Qed.

(** The first template that fails makes the first rejection. *)
Lemma renderRejections_first self ioEvent before template e after :
  Forall (fun template' =>
            exists output,
              Mustache_render template' (templateView ioEvent) = inr output)
         before ->
  Mustache_render template (templateView ioEvent) = inl e ->
  exists later,
    renderRejections self ioEvent (before ++ template :: after) =
    Rejected (renderFailure self ioEvent template e) :: later.
Proof.
  intros Hbefore Hfail. unfold renderRejections at 1.
  rewrite flat_map_app.
  fold (renderRejections self ioEvent before).
  rewrite (renderRejections_none self ioEvent before Hbefore).
  cbn. rewrite Hfail. cbn. eauto.
Qed.


(* ------------------------------------------------------------------ *)
(** ** Properties of [react] *)

(** X21. [react(ioEvent)] never throws synchronously, and for a plugin
    whose executor is bound and returns, for the batch submitted, a promise
    that settles, the promise of the reaction ends settled with one
    [ReactorResult] whose [ioEvent] is the event given: fulfilled with a
    success that has no error, or rejected with a failure that carries the
    error. *)
Theorem react_settles_with_result_about_event self ioEvent proxy :
  _statefulProcessCommandProxy self = Some proxy ->
  (exists p,
      executeCommands proxy (batch self ioEvent) = inr p /\ p <> ExecPending) ->
  (forall h, fst (react ioEvent h) = Normal tt)
  /\ fst (reaction self ioEvent) = Normal tt
  /\ exists result,
       (promise (snd (reaction self ioEvent)) = Fulfilled result
        /\ ReactorResult.isSuccess result = true
        /\ ReactorResult.error result = None
        \/ promise (snd (reaction self ioEvent)) = Rejected result
           /\ ReactorResult.isSuccess result = false
           /\ ReactorResult.error result <> None)
       /\ ReactorResult.ioEvent result = ioEvent.
Proof.
  intros Hproxy Hexec.
  split; [intros h; apply react_normal|].
  split; [apply reaction_normal|].
  rewrite (reaction_promise self ioEvent proxy Hproxy).
  assert (Habout : resultAbout ioEvent
            (settleAll (collectRejections self ioEvent
                          ++ executionSettles self ioEvent proxy) Pending)).
  { destruct Hexec as [p [Hp Hsettles]]. apply settleAll_about.
    - unfold executionSettles. rewrite Hp.
      destruct p; [| |congruence];
        intros Hnil; apply app_eq_nil in Hnil; destruct Hnil; discriminate.
    - apply Forall_app. split; [apply collectRejections_about|].
      unfold executionSettles. rewrite Hp.
      destruct p; [| |congruence]; constructor; auto;
        cbn; repeat split; discriminate. }
  destruct (settleAll _ Pending) as [|result|result|e]; cbn in Habout;
    try contradiction; exists result; tauto.
Qed.

(** C3. With templates and a generator configured, all templates rendering
    and the generator returning an array, the one batch handed to the
    executor is the rendered outputs (an empty output is no command) in
    the order of the templates, followed by the generator's commands in
    the order returned. *)
Theorem react_batch_templates_then_generator
        self ioEvent proxy templates generator outputs cmds :
  _statefulProcessCommandProxy self = Some proxy ->
  _commandTemplates self = Some templates ->
  _commandGenerator self = Some generator ->
  Forall2 (fun template output =>
             Mustache_render template (templateView ioEvent) = inr output)
          templates outputs ->
  generator ioEvent = inr (GenArray cmds) ->
  submitted (calls (snd (reaction self ioEvent))) = [filter truthy outputs ++ cmds]
  /\ (Forall (fun output => output <> "") outputs ->
      submitted (calls (snd (reaction self ioEvent))) = [outputs ++ cmds]).
Proof.
  intros Hproxy Htemplates Hgenerator Hrender Hgenerated.
  assert (Hbatch : batch self ioEvent = filter truthy outputs ++ cmds).
  { unfold batch, templatesOf, commandsFromGenerator.
    rewrite Htemplates, Hgenerator, Hgenerated.
    now rewrite (commandsFromTemplates_rendered ioEvent templates outputs Hrender). }
  rewrite (reaction_submitted self ioEvent proxy Hproxy), Hbatch.
  split; [reflexivity|].
  intros Hne. now rewrite (filter_truthy_all outputs Hne).
Qed.



(* ------------------------------------------------------------------ *)
(** ** Properties of the constructor *)

(** Open the constructor down to the heap operations. *)
Ltac unfold_constructor :=
  unfold constructor, tryCatch, bind, setIds, setThis, bindExecutor,
    handleCommandGenerator, handleCommandTemplates, reportError, getThis,
    _log, _onError, call, throw, ret, setProxy, setCommandGenerator,
    setCommandTemplates.

Lemma constructor_normal pluginId reactorId pluginConfig h :
  fst (constructor pluginId reactorId pluginConfig h) = Normal tt.
Proof.
  unfold_constructor.
  destruct pluginConfig as [[[[cfg|] [inst|]]|] [g|] [ts|]]; cbn;
    try reflexivity;
    destruct (newStatefulProcessCommandProxy cfg); reflexivity.
Qed.

(** X10. With templates configured and an executor given (a [config] or an
    [instance]), the initialized callback is called exactly once, with
    the plugin id, whether or not the executor could be constructed and
    whether or not a generator is configured. *)
Lemma constructor_initialized_with_templates
      pluginId reactorId source generator templates :
  (config source <> None \/ instance source <> None) ->
  initializedCalls
    (calls (snd (constructor pluginId reactorId
                   {| statefulProcessCommandProxy := Some source;
                      commandGenerator := generator;
                      commandTemplates := Some templates |} freshHeap)))
  = [pluginId].
Proof.
  intros Hgiven.
  unfold_constructor.
  destruct source as [[cfg|] [inst|]], generator as [g|]; cbn;
    try reflexivity;
    try (destruct (newStatefulProcessCommandProxy cfg); reflexivity).
  all: destruct Hgiven as [Hnone|Hnone]; cbn in Hnone; congruence.
Qed.

(** C8. The constructor always returns normally.  Given a [config], an
    executor is constructed from it once and bound when its constructor
    returns one; given only an [instance], that instance is bound and no
    executor is constructed; given neither, the plugin is left without an
    executor and the only calls made are one log call at severity error
    and one call of the error callback, both with the same message. *)
Theorem constructor_never_throws_and_binds_executor :
  (forall pluginId reactorId pluginConfig h,
      fst (constructor pluginId reactorId pluginConfig h) = Normal tt)
  /\ (forall pluginId reactorId cfg inst generator templates,
        let h := snd (constructor pluginId reactorId
                        {| statefulProcessCommandProxy :=
                             Some {| config := Some cfg; instance := inst |};
                           commandGenerator := generator;
                           commandTemplates := templates |} freshHeap) in
        constructedProxies (calls h) = [cfg]
        /\ _statefulProcessCommandProxy (this h) =
           match newStatefulProcessCommandProxy cfg with
           | inr p => Some p
           | inl _ => None
           end)
  /\ (forall pluginId reactorId inst generator templates,
        let h := snd (constructor pluginId reactorId
                        {| statefulProcessCommandProxy :=
                             Some {| config := None; instance := Some inst |};
                           commandGenerator := generator;
                           commandTemplates := templates |} freshHeap) in
        constructedProxies (calls h) = []
        /\ errorCalls (calls h) = []
        /\ _statefulProcessCommandProxy (this h) = Some inst)
  /\ (forall pluginId reactorId generator templates,
        let h := snd (constructor pluginId reactorId
                        {| statefulProcessCommandProxy :=
                             Some {| config := None; instance := None |};
                           commandGenerator := generator;
                           commandTemplates := templates |} freshHeap) in
        let origin :=
          className +++ "[" +++ reactorId +++ "][" +++ pluginId +++ "]" in
        let errMsg :=
          origin +++ " unexpected error: " +++ toString missingExecutor in
        calls h =
          [ LogFunction "error" origin errMsg;
            ErrorCallback errMsg missingExecutor ]
        /\ _statefulProcessCommandProxy (this h) = None).
Proof.
  split; [intros; apply constructor_normal|].
  unfold_constructor.
  split; [|split].
  - intros pluginId reactorId cfg inst [g|] [ts|]; cbn;
      destruct (newStatefulProcessCommandProxy cfg); cbn; split; reflexivity.
  - intros pluginId reactorId inst [g|] [ts|]; cbn; repeat split.
  - intros pluginId reactorId generator templates; cbn. split; reflexivity.
Qed.

(* ------------------------------------------------------------------ *)
(** ** A reaction from any heap *)

(** The heap a reaction leaves, started in any heap of the plugin: the
    plugin is kept, the promise is a fresh one, and the calls are added to
    those made before. *)
Lemma reaction_from self ioEvent proxy h :
  this h = self ->
  _statefulProcessCommandProxy self = Some proxy ->
  withReactions (react ioEvent) h =
  (Normal tt,
   {| this := self;
      promise := settleAll (collectRejections self ioEvent
                              ++ executionSettles self ioEvent proxy) Pending;
      awaited := match executeCommands proxy (batch self ioEvent) with
                 | inr p => Some (p, (self, ioEvent))
                 | inl _ => None
                 end;
      calls := calls h ++ collectCalls self ioEvent
                 ++ ExecuteCommands (batch self ioEvent)
                 :: executionLogs self ioEvent proxy |}).
Proof.
  intros Hthis Hproxy.
  unfold withReactions, react, newPromise, reactExecutor, getThis.
  unfold bind at 1 2. rewrite Hthis. cbn [this promise awaited calls].
  unfold bind at 1. rewrite collect_run.
  unfold callExecuteCommands, runReactions, executionSettles, executionLogs.
  rewrite Hproxy, settleAll_app. cbn -[collectCalls].
  destruct (executeCommands proxy (batch self ioEvent)) as [e|[results|error|]];
    cbn -[collectCalls]; rewrite <- ?app_assoc; try reflexivity.
  unfold tryCatch, onFulfilled, bind. rewrite forOf_log. cbn -[collectCalls].
  now rewrite <- !app_assoc.
Qed.

(** The same for a plugin without executor: the call of [executeCommands]
    throws inside [new Promise]. *)
Lemma reaction_from_without_executor self ioEvent h :
  this h = self ->
  _statefulProcessCommandProxy self = None ->
  withReactions (react ioEvent) h =
  (Normal tt,
   {| this := self;
      promise :=
        settleAll
          (collectRejections self ioEvent
             ++ [RejectedError
                   (TypeError "Cannot read property 'executeCommands' of undefined")])
          Pending;
      awaited := None;
      calls := calls h ++ collectCalls self ioEvent |}).
Proof.
  intros Hthis Hnone.
  unfold withReactions, react, newPromise, reactExecutor, getThis.
  unfold bind at 1 2. rewrite Hthis. cbn [this promise awaited calls].
  unfold bind at 1. rewrite collect_run.
  unfold callExecuteCommands, runReactions.
  rewrite Hnone, settleAll_app. reflexivity.
Qed.

Lemma collectRejections_clean self ioEvent :
  nothingFails self ioEvent -> collectRejections self ioEvent = [].
Proof.
  intros [Htemplates Hgenerator]. unfold collectRejections.
  rewrite (renderRejections_none self ioEvent _ Htemplates).
  unfold generatorRejections.
  destruct (_commandGenerator self) as [generator|]; [|reflexivity].
  destruct (Hgenerator generator eq_refl) as [generated ->]. reflexivity.
Qed.

Lemma collectCalls_reactionCalls self ioEvent :
  Forall (reactionCall self) (collectCalls self ioEvent).
Proof.
  unfold collectCalls. constructor; [cbn; auto|].
  apply Forall_app. split.
  - unfold renderCalls. apply Forall_map, Forall_forall. intros; exact I.
  - unfold generatorCall. destruct (_commandGenerator self); repeat constructor.
Qed.

Lemma executionLogs_reactionCalls self ioEvent proxy :
  Forall (reactionCall self) (executionLogs self ioEvent proxy).
Proof.
  destruct (executionLogs_cases self ioEvent proxy) as [results ->].
  apply Forall_map, Forall_forall. intros result _. cbn. auto.
Qed.

Lemma submitted_collectCalls self ioEvent :
  submitted (collectCalls self ioEvent) = [].
Proof.
  unfold collectCalls, submitted. cbn [flat_map app].
  rewrite flat_map_app.
  fold (submitted (renderCalls ioEvent (templatesOf self))).
  rewrite submitted_renderCalls.
  unfold generatorCall. destruct (_commandGenerator self); reflexivity.
Qed.

(* ------------------------------------------------------------------ *)
(** ** Further properties of [react] *)

(** X1. [react] keeps no state of its own between reactions.  With a
    renderer, a generator and an executor whose answers depend only on
    their arguments, a reaction started in any heap of the plugin (after
    earlier reactions, whatever their outcome; with or without an
    executor) leaves the plugin object as it was, keeps the calls already
    made and adds exactly those of a first reaction to the event, and
    settles its own new promise as that first reaction does: nothing is
    read from the promise or the trace left by an earlier reaction. *)
Theorem react_independent_of_earlier_reactions self ioEvent h :
  this h = self ->
  this (snd (withReactions (react ioEvent) h)) = self
  /\ promise (snd (withReactions (react ioEvent) h))
     = promise (snd (reaction self ioEvent))
  /\ calls (snd (withReactions (react ioEvent) h))
     = calls h ++ calls (snd (reaction self ioEvent)).
Proof.
  intros Hthis. unfold reaction.
  destruct (_statefulProcessCommandProxy self) as [proxy|] eqn:Hproxy.
  - rewrite (reaction_from self ioEvent proxy h Hthis Hproxy).
    rewrite (reaction_from self ioEvent proxy (heapOf self) eq_refl Hproxy).
    cbn [snd this promise calls heapOf app]. repeat split.
  - rewrite (reaction_from_without_executor self ioEvent h Hthis Hproxy).
    rewrite (reaction_from_without_executor self ioEvent (heapOf self)
               eq_refl Hproxy).
    cbn [snd this promise calls heapOf app]. repeat split.
Qed.

(** X2. When nothing fails while the batch is collected and the executor's
    promise is rejected with an error, the promise of the reaction is
    rejected with a failure whose message is [Error executing commands: ]
    followed by the error and which carries that error; the batch was
    submitted once and no result line is logged. *)
Theorem react_execution_failure self ioEvent proxy error :
  _statefulProcessCommandProxy self = Some proxy ->
  nothingFails self ioEvent ->
  executeCommands proxy (batch self ioEvent) = inr (ExecRejected error) ->
  promise (snd (reaction self ioEvent)) =
    Rejected (ReactorResult.new false (getId self) (_reactorId self) ioEvent
                ("Error executing commands: " +++ toString error) (Some error))
  /\ calls (snd (reaction self ioEvent)) =
     collectCalls self ioEvent ++ [ExecuteCommands (batch self ioEvent)].
Proof.
  intros Hproxy Hclean Hrejected. split.
  - rewrite (reaction_promise self ioEvent proxy Hproxy).
    rewrite (collectRejections_clean self ioEvent Hclean).
    unfold executionSettles. now rewrite Hrejected.
  - rewrite (reaction_calls self ioEvent proxy Hproxy).
    unfold executionLogs. now rewrite Hrejected.
Qed.

(** X3. When nothing fails while the batch is collected and
    [executeCommands] itself throws, the promise of the reaction is
    rejected with the thrown error as it is, not with a [ReactorResult];
    [react] still returns normally. *)
Theorem react_executor_throws self ioEvent proxy e :
  _statefulProcessCommandProxy self = Some proxy ->
  nothingFails self ioEvent ->
  executeCommands proxy (batch self ioEvent) = inl e ->
  fst (reaction self ioEvent) = Normal tt
  /\ promise (snd (reaction self ioEvent)) = RejectedError e
  /\ submitted (calls (snd (reaction self ioEvent))) = [batch self ioEvent].
Proof.
  intros Hproxy Hclean Hthrows.
  split; [apply reaction_normal|]. split.
  - rewrite (reaction_promise self ioEvent proxy Hproxy).
    rewrite (collectRejections_clean self ioEvent Hclean).
    unfold executionSettles. now rewrite Hthrows.
  - apply (reaction_submitted self ioEvent proxy Hproxy).
Qed.

(** X4. A plugin left without executor still collects.  When every
    configured template renders and the generator, if any, returns, every
    template is rendered and the generator is called, then the call of
    [executeCommands] on the missing executor throws a [TypeError] inside
    [new Promise]: [react] returns normally, the promise is rejected with
    that error as it is, not with a [ReactorResult], and nothing is
    submitted. *)
Theorem react_without_executor_rejects_raw self ioEvent :
  _statefulProcessCommandProxy self = None ->
  nothingFails self ioEvent ->
  fst (reaction self ioEvent) = Normal tt
  /\ (exists e,
        promise (snd (reaction self ioEvent)) = RejectedError e
        /\ errName e = "TypeError")
  /\ calls (snd (reaction self ioEvent)) = collectCalls self ioEvent
  /\ renderedTemplates (calls (snd (reaction self ioEvent))) = templatesOf self
  /\ submitted (calls (snd (reaction self ioEvent))) = [].
Proof.
  intros Hnone Hclean.
  split; [apply reaction_normal|].
  unfold reaction.
  rewrite (reaction_from_without_executor self ioEvent (heapOf self)
             eq_refl Hnone).
  cbn [snd promise calls heapOf app].
  rewrite (collectRejections_clean self ioEvent Hclean).
  split; [eexists; split; reflexivity|]. split; [reflexivity|]. split.
  - unfold collectCalls, renderedTemplates. cbn [flat_map app].
    rewrite flat_map_app.
    fold (renderedTemplates (renderCalls ioEvent (templatesOf self))).
    rewrite renderedTemplates_renderCalls.
    unfold generatorCall. destruct (_commandGenerator self); cbn;
      now rewrite app_nil_r.
  - apply submitted_collectCalls.
Qed.

(** X5. While the executor's promise stays pending, so does the promise of
    the reaction: when nothing fails while the batch is collected and
    [executeCommands] returns a promise that never settles, the batch has
    been submitted and the promise of the reaction is neither fulfilled
    nor rejected. *)
Theorem react_pending_while_executor_pending self ioEvent proxy :
  _statefulProcessCommandProxy self = Some proxy ->
  nothingFails self ioEvent ->
  executeCommands proxy (batch self ioEvent) = inr ExecPending ->
  promise (snd (reaction self ioEvent)) = Pending
  /\ submitted (calls (snd (reaction self ioEvent))) = [batch self ioEvent].
Proof.
  intros Hproxy Hclean Hpending. split.
  - rewrite (reaction_promise self ioEvent proxy Hproxy).
    rewrite (collectRejections_clean self ioEvent Hclean).
    unfold executionSettles. now rewrite Hpending.
  - apply (reaction_submitted self ioEvent proxy Hproxy).
Qed.

(** X6. When nothing fails while the batch is collected and the executor
    fulfils its promise with an array of results, the promise of the
    reaction is fulfilled with the success result, and the calls of the
    reaction end with the submission followed by one log line per result,
    in the order of the array. *)
Theorem react_success_logs_each_result self ioEvent proxy results :
  _statefulProcessCommandProxy self = Some proxy ->
  nothingFails self ioEvent ->
  executeCommands proxy (batch self ioEvent) = inr (ExecFulfilled results) ->
  promise (snd (reaction self ioEvent)) =
    Fulfilled (ReactorResult.new true (getId self) (_reactorId self) ioEvent
                 "Executed commands successfully" None)
  /\ calls (snd (reaction self ioEvent)) =
     collectCalls self ioEvent
       ++ ExecuteCommands (batch self ioEvent)
       :: map (fun result =>
                 LogFunction "info"
                   (className +++ "[" +++ _reactorId self +++ "]["
                      +++ getId self +++ "]")
                   ("CmdResult: cmd: " +++ command result +++ " stdout:"
                      +++ stdout result +++ " stderr:" +++ stderr result))
              results.
Proof.
  intros Hproxy Hclean Hfulfilled. split.
  - rewrite (reaction_promise self ioEvent proxy Hproxy).
    rewrite (collectRejections_clean self ioEvent Hclean).
    unfold executionSettles. now rewrite Hfulfilled.
  - rewrite (reaction_calls self ioEvent proxy Hproxy).
    unfold executionLogs. now rewrite Hfulfilled.
Qed.


(** X8. Whatever happens in a reaction, with or without an executor, every
    call it makes is a render, the generator call, the submission or a log
    line at severity info under the plugin's origin: failures are reported
    through the promise only, never through the error callback or a log
    line above info. *)
Theorem react_reports_only_through_promise self ioEvent :
  Forall (reactionCall self) (calls (snd (reaction self ioEvent))).
Proof.
  destruct (_statefulProcessCommandProxy self) as [proxy|] eqn:Hproxy.
  - rewrite (reaction_calls self ioEvent proxy Hproxy).
    apply Forall_app. split; [apply collectCalls_reactionCalls|].
    constructor; [exact I | apply executionLogs_reactionCalls].
  - unfold reaction.
    rewrite (reaction_from_without_executor self ioEvent (heapOf self)
               eq_refl Hproxy).
    cbn [snd calls heapOf app]. apply collectCalls_reactionCalls.
Qed.


(** X17. The templates never put an empty command in the batch: for a
    plugin without generator, the one batch submitted holds no empty
    string and has at most as many commands as there are templates. *)
Theorem react_templates_submit_no_empty_command self ioEvent proxy :
  _statefulProcessCommandProxy self = Some proxy ->
  _commandGenerator self = None ->
  exists commands,
    submitted (calls (snd (reaction self ioEvent))) = [commands]
    /\ ~ In "" commands
    /\ List.length commands <= List.length (templatesOf self).
Proof.
  intros Hproxy Hnone. exists (batch self ioEvent).
  split; [apply (reaction_submitted self ioEvent proxy Hproxy)|].
  unfold batch, commandsFromGenerator. rewrite Hnone, app_nil_r.
  generalize (templatesOf self) as templates.
  induction templates as [|template rest [IHin IHlen]]; cbn; [split; auto|].
  destruct (Mustache_render template (templateView ioEvent)) as [e|output];
    cbn; [split; auto|].
  unfold truthy. destruct (String.eqb_spec output ""); cbn; [split; auto|].
  split.
  - intros [Heq|Hin]; [congruence | contradiction].
  - now apply le_n_S.
Qed.

(** X20. A template that fails to render only loses its own command: when
    every other template renders and no generator is configured, the batch
    still submitted is made of the outputs of the templates before and
    after the failing one, in order (an empty output is no command), while
    the promise is rejected with that template's failure. *)
Theorem react_render_failure_submits_the_rest
        self ioEvent proxy before template e after outputsBefore outputsAfter :
  _statefulProcessCommandProxy self = Some proxy ->
  _commandGenerator self = None ->
  _commandTemplates self = Some (before ++ template :: after) ->
  Forall2 (fun template' output =>
             Mustache_render template' (templateView ioEvent) = inr output)
          before outputsBefore ->
  Mustache_render template (templateView ioEvent) = inl e ->
  Forall2 (fun template' output =>
             Mustache_render template' (templateView ioEvent) = inr output)
          after outputsAfter ->
  promise (snd (reaction self ioEvent)) =
    Rejected (ReactorResult.new false (getId self) (_reactorId self) ioEvent
                ("Error generating command from mustache template: "
                   +++ template +++ " " +++ toString e) (Some e))
  /\ submitted (calls (snd (reaction self ioEvent))) =
     [filter truthy outputsBefore ++ filter truthy outputsAfter].
Proof.
  intros Hproxy Hnone Htemplates Hbefore Hfail Hafter. split.
  - rewrite (reaction_promise self ioEvent proxy Hproxy).
    unfold collectRejections, templatesOf. rewrite Htemplates.
    destruct (renderRejections_first self ioEvent before template e after)
      as [later ->]; [|exact Hfail|].
    + clear - Hbefore. induction Hbefore; constructor; eauto.
    + cbn [app]. apply settleAll_first. discriminate.
  - rewrite (reaction_submitted self ioEvent proxy Hproxy).
    unfold batch, templatesOf, commandsFromGenerator.
    rewrite Htemplates, Hnone, app_nil_r.
    unfold commandsFromTemplates at 1. rewrite flat_map_app. cbn [flat_map].
    rewrite Hfail. cbn [app].
    fold (commandsFromTemplates ioEvent before).
    fold (commandsFromTemplates ioEvent after).
    rewrite (commandsFromTemplates_rendered ioEvent before outputsBefore Hbefore).
    now rewrite (commandsFromTemplates_rendered ioEvent after outputsAfter Hafter).
Qed.

(* ------------------------------------------------------------------ *)
(** ** Further properties of the constructor *)

(** X9. When the constructor of the executor throws, the error is logged
    at severity error and handed to the error callback with the message
    [... error constructing StatefulProcessCommandProxy: ] followed by the
    error, and construction goes on: the plugin is left without executor
    (a given [instance] is not used instead), the generator and the
    templates are stored, and the initialized callback is still called
    when templates are configured. *)
Theorem constructor_reports_failed_executor_construction
        pluginId reactorId cfg inst generator templates e :
  newStatefulProcessCommandProxy cfg = inl e ->
  let h := snd (constructor pluginId reactorId
                  {| statefulProcessCommandProxy :=
                       Some {| config := Some cfg; instance := inst |};
                     commandGenerator := generator;
                     commandTemplates := templates |} freshHeap) in
  let origin :=
    className +++ "[" +++ reactorId +++ "][" +++ pluginId +++ "]" in
  let errMsg :=
    origin +++ " error constructing StatefulProcessCommandProxy: "
      +++ toString e in
  this h = {| _pluginId := pluginId; _reactorId := reactorId;
              _statefulProcessCommandProxy := None;
              _commandGenerator := generator;
              _commandTemplates := templates |}
  /\ errorCalls (calls h) = [(errMsg, e)]
  /\ logSeverities (calls h) = ["error"]
  /\ initializedCalls (calls h) =
     match templates with Some _ => [pluginId] | None => [] end.
Proof.
  intros Hthrows. unfold_constructor.
  destruct generator as [g|], templates as [ts|]; cbn; rewrite Hthrows; cbn;
    repeat split.
Qed.

(** X11. When the executor cannot be bound because
    [pluginConfig.statefulProcessCommandProxy] is missing or holds neither
    [config] nor [instance], the rest of the constructor is skipped: the
    configured generator and templates are not stored, no probe is
    scheduled and the initialized callback is not called; the error is
    logged once and handed to the error callback once. *)
Theorem constructor_without_executor_stores_no_source :
  forall pluginId reactorId source generator templates,
    source = None \/ source = Some {| config := None; instance := None |} ->
    let h := snd (constructor pluginId reactorId
                    {| statefulProcessCommandProxy := source;
                       commandGenerator := generator;
                       commandTemplates := templates |} freshHeap) in
    this h = {| _pluginId := pluginId; _reactorId := reactorId;
                _statefulProcessCommandProxy := None;
                _commandGenerator := None;
                _commandTemplates := None |}
    /\ initializedCalls (calls h) = []
    /\ logSeverities (calls h) = ["error"]
    /\ List.length (errorCalls (calls h)) = 1
    /\ List.length (calls h) = 2.
Proof.
  intros pluginId reactorId source generator templates [-> | ->];
    unfold_constructor; cbn; repeat split.
Qed.

(** X12. With an existing [instance] given (and no [config]), the plugin
    the constructor leaves holds exactly what was configured, no error is
    reported and nothing is logged, and one probe is scheduled with
    [fs.stat] per configured command source, the generator's first; the
    initialized callback is called after the probes are scheduled. *)
Theorem constructor_stores_configuration :
  forall pluginId reactorId inst generator templates,
    let h := snd (constructor pluginId reactorId
                    {| statefulProcessCommandProxy :=
                         Some {| config := None; instance := Some inst |};
                       commandGenerator := generator;
                       commandTemplates := templates |} freshHeap) in
    this h = {| _pluginId := pluginId; _reactorId := reactorId;
                _statefulProcessCommandProxy := Some inst;
                _commandGenerator := generator;
                _commandTemplates := templates |}
    /\ calls h =
       match generator with
       | Some _ => [FsStat ProbeCommandGenerator]
       | None => []
       end
       ++ match templates with
          | Some _ => [FsStat ProbeCommandTemplates; InitializedCallback pluginId]
          | None => []
          end.
Proof.
  intros pluginId reactorId inst [g|] [ts|]; unfold_constructor; cbn;
    split; reflexivity.
Qed.

(** X15. Whatever the configuration, and whether or not construction
    reports an error, [getId] of the plugin built is the [pluginId] given
    to the constructor, and its reactor id the [reactorId] given. *)
Theorem constructor_keeps_ids pluginId reactorId pluginConfig :
  getId (this (snd (constructor pluginId reactorId pluginConfig freshHeap)))
    = pluginId
  /\ _reactorId (this (snd (constructor pluginId reactorId pluginConfig
                              freshHeap)))
     = reactorId.
Proof.
  unfold_constructor.
  destruct pluginConfig as [[[[cfg|] [inst|]]|] [g|] [ts|]]; cbn;
    try (split; reflexivity);
    destruct (newStatefulProcessCommandProxy cfg); split; reflexivity.
Qed.

(* ------------------------------------------------------------------ *)
(** ** The probes run by [fs.stat] *)

Lemma probe_loop self ioEvent templates : forall h,
  forOf templates (fun template =>
    tryCatch
      (output <- callMustacheRender template (templateView ioEvent) ;;
       _log self "info"
            ("commandTemplate[" +++ template +++ "] rendered to: "
               +++ output))
      (fun e =>
         _log self "error"
              (errPrefix self
                 +++ " error pre-testing Mustache commandTemplate["
                 +++ template +++ "]: " +++ toString e))) h =
  (Normal tt,
   {| this := this h; promise := promise h; awaited := awaited h;
      calls := calls h ++ flat_map (probeTemplateCalls self ioEvent) templates |}).
Proof.
  induction templates as [|template rest IH]; intros h.
  - destruct h; cbn. unfold ret. now rewrite app_nil_r.
  - cbn [forOf flat_map]. unfold bind at 1.
    unfold tryCatch at 1, callMustacheRender, bind, call, _log, throw, ret.
    unfold probeTemplateCalls at 1.
    destruct (Mustache_render template (templateView ioEvent)) as [e|output];
      cbn; rewrite IH; cbn; now rewrite <- !app_assoc.
Qed.

Lemma probeCalls_rendered self ioEvent templates :
  renderedTemplates (flat_map (probeTemplateCalls self ioEvent) templates)
  = templates.
Proof.
  induction templates as [|template rest IH]; cbn; [reflexivity|].
  destruct (Mustache_render template (templateView ioEvent)); cbn; f_equal;
    exact IH.
Qed.

Lemma probeCalls_severities self ioEvent templates :
  logSeverities (flat_map (probeTemplateCalls self ioEvent) templates)
  = map (fun template =>
           match Mustache_render template (templateView ioEvent) with
           | inr _ => "info"
           | inl _ => "error"
           end) templates.
Proof.
  induction templates as [|template rest IH]; cbn; [reflexivity|].
  destruct (Mustache_render template (templateView ioEvent)); cbn; f_equal;
    exact IH.
Qed.

Lemma probeCalls_no_error self ioEvent templates :
  errorCalls (flat_map (probeTemplateCalls self ioEvent) templates) = [].
Proof.
  induction templates as [|template rest IH]; cbn; [reflexivity|].
  destruct (Mustache_render template (templateView ioEvent)); cbn; exact IH.
Qed.

(** X13. The templates probe never throws on account of a template: with
    [fs.stat] succeeding, it renders every configured template once, in
    order, against the probe event [/test/full/path/tothing], and logs one
    line per template, at severity info with the output or at severity
    error with the failure, going on after a failure.  It does not call
    the error callback and leaves the plugin and the promise alone. *)
Theorem probeCommandTemplates_logs_each_template stats uuid h templates :
  _commandTemplates (this h) = Some templates ->
  probeCommandTemplates None stats uuid h =
  (Normal tt,
   {| this := this h; promise := promise h; awaited := awaited h;
      calls := calls h
                 ++ flat_map (probeTemplateCalls (this h)
                                (templatesProbeEvent uuid stats)) templates |})
  /\ renderedTemplates
       (flat_map (probeTemplateCalls (this h) (templatesProbeEvent uuid stats))
                 templates) = templates
  /\ logSeverities
       (flat_map (probeTemplateCalls (this h) (templatesProbeEvent uuid stats))
                 templates)
     = map (fun template =>
              match Mustache_render template
                      (templateView (templatesProbeEvent uuid stats)) with
              | inr _ => "info"
              | inl _ => "error"
              end) templates
  /\ errorCalls
       (flat_map (probeTemplateCalls (this h) (templatesProbeEvent uuid stats))
                 templates) = [].
Proof.
  intros Htemplates. split; [|split; [|split]].
  - unfold probeCommandTemplates, bind at 1, getThis. rewrite Htemplates.
    apply probe_loop.
  - apply probeCalls_rendered.
  - apply probeCalls_severities.
  - apply probeCalls_no_error.
Qed.

(** X14. The generator probe lets the generator's failure escape: with
    [fs.stat] succeeding and the generator throwing on the probe event
    [/test/full/path/tothing.zip], the callback throws that error, having
    called the generator once and nothing else: no log line, no error
    callback.  An error of [fs.stat] itself is thrown by both callbacks
    before anything else is done. *)
Theorem probeCommandGenerator_failure_escapes stats uuid h generator e :
  _commandGenerator (this h) = Some generator ->
  generator (generatorProbeEvent uuid stats) = inl e ->
  probeCommandGenerator None stats uuid h =
  (Throw e,
   {| this := this h; promise := promise h; awaited := awaited h;
      calls := calls h
                 ++ [CommandGeneratorCall (generatorProbeEvent uuid stats)] |})
  /\ (forall err, probeCommandGenerator (Some err) stats uuid h = (Throw err, h))
  /\ (forall err, probeCommandTemplates (Some err) stats uuid h = (Throw err, h)).
Proof.
  intros Hgenerator Hthrows. split; [|split; reflexivity].
  unfold probeCommandGenerator, bind at 1, getThis, callCommandGenerator.
  rewrite Hgenerator. unfold bind, call.
  fold (generatorProbeEvent uuid stats). now rewrite Hthrows.
Qed.

(** X18. With [fs.stat] succeeding and the generator returning an array
    for the probe event, the generator probe completes normally and logs
    one line at severity info that shows the commands joined by commas. *)
Theorem probeCommandGenerator_logs_commands stats uuid h generator commands :
  _commandGenerator (this h) = Some generator ->
  generator (generatorProbeEvent uuid stats) = inr (GenArray commands) ->
  probeCommandGenerator None stats uuid h =
  (Normal tt,
   {| this := this h; promise := promise h; awaited := awaited h;
      calls := calls h
                 ++ [ CommandGeneratorCall (generatorProbeEvent uuid stats);
                      LogFunction "info"
                        (className +++ "[" +++ _reactorId (this h) +++ "]["
                           +++ getId (this h) +++ "]")
                        ("commandGenerator() function returned test command to exec: "
                           +++ join "," commands) ] |}).
Proof.
  intros Hgenerator Hreturns.
  unfold probeCommandGenerator, bind at 1, getThis, callCommandGenerator.
  rewrite Hgenerator. unfold bind, _log, call.
  fold (generatorProbeEvent uuid stats). rewrite Hreturns. cbn.
  now rewrite <- app_assoc.
Qed.

(* ------------------------------------------------------------------ *)
(** ** Construction followed by a reaction *)

(** X19. A plugin constructed with an existing executor instance,
    templates and a generator reacts with what it was configured with:
    when the templates render and the generator returns an array, the
    reaction run on the object the constructor left submits one batch,
    the rendered outputs (an empty output is no command) followed by the
    generator's commands; constructing submitted nothing. *)
Theorem constructed_plugin_reacts_with_configuration
        pluginId reactorId inst generator templates ioEvent outputs cmds :
  Forall2 (fun template output =>
             Mustache_render template (templateView ioEvent) = inr output)
          templates outputs ->
  generator ioEvent = inr (GenArray cmds) ->
  let h := snd (constructor pluginId reactorId
                  {| statefulProcessCommandProxy :=
                       Some {| config := None; instance := Some inst |};
                     commandGenerator := Some generator;
                     commandTemplates := Some templates |} freshHeap) in
  submitted (calls h) = []
  /\ submitted (calls (snd (withReactions (react ioEvent) h)))
     = [filter truthy outputs ++ cmds].
Proof.
  intros Hrender Hgenerated h.
  set (self := {| _pluginId := pluginId; _reactorId := reactorId;
                  _statefulProcessCommandProxy := Some inst;
                  _commandGenerator := Some generator;
                  _commandTemplates := Some templates |}).
  assert (Hthis : this h = self) by reflexivity.
  assert (Hcalls : submitted (calls h) = []) by reflexivity.
  split; [exact Hcalls|].
  rewrite (reaction_from self ioEvent inst h Hthis eq_refl).
  cbn [snd calls].
  destruct (executionLogs_cases self ioEvent inst) as [results ->].
  unfold submitted at 1. rewrite !flat_map_app. cbn [flat_map].
  fold (submitted (calls h)). fold (submitted (collectCalls self ioEvent)).
  fold (submitted (map (resultLog self) results)).
  rewrite Hcalls, submitted_collectCalls, submitted_resultLogs. cbn [app].
  unfold batch, templatesOf, commandsFromGenerator. cbn [_commandTemplates
    _commandGenerator self]. rewrite Hgenerated.
  now rewrite (commandsFromTemplates_rendered ioEvent templates outputs Hrender).
Qed.

End Plugin.

(* ------------------------------------------------------------------ *)
(** ** The pipeline with the mustache engine, on sample inputs *)

(** Witness of X21: the plugin with one template and the accepting
    executor, reacting to [sampleEvent]. *)
Lemma react_settles_with_result_about_event_witness :
  (forall h, fst (react Mustache.render sampleEvent h) = Normal tt)
  /\ fst (reaction Mustache.render pluginIoEventKey sampleEvent) = Normal tt
  /\ exists result,
       (promise (snd (reaction Mustache.render pluginIoEventKey sampleEvent))
        = Fulfilled result
        /\ ReactorResult.isSuccess result = true
        /\ ReactorResult.error result = None
        \/ promise (snd (reaction Mustache.render pluginIoEventKey sampleEvent))
           = Rejected result
           /\ ReactorResult.isSuccess result = false
           /\ ReactorResult.error result <> None)
       /\ ReactorResult.ioEvent result = sampleEvent.
Proof.
  apply (react_settles_with_result_about_event Mustache.render
           pluginIoEventKey sampleEvent acceptingProxy).
  - reflexivity.
  - eexists. split; [reflexivity | discriminate].
Defined.

(** Witness of C3: one template rendering to [cmdT] and a generator
    returning [cmdA], [cmdB] give the batch [cmdT], [cmdA], [cmdB]. *)
Lemma react_batch_templates_then_generator_witness :
  submitted (calls (snd (reaction Mustache.render
                           (samplePlugin (Some ["cmdT"]) (Some generatorAB))
                           sampleEvent)))
  = [["cmdT"; "cmdA"; "cmdB"]]
  /\ (Forall (fun output => output <> "") ["cmdT"] ->
      submitted (calls (snd (reaction Mustache.render
                               (samplePlugin (Some ["cmdT"]) (Some generatorAB))
                               sampleEvent)))
      = [["cmdT"; "cmdA"; "cmdB"]]).
Proof.
  apply (react_batch_templates_then_generator Mustache.render
           (samplePlugin (Some ["cmdT"]) (Some generatorAB)) sampleEvent
           acceptingProxy ["cmdT"] generatorAB ["cmdT"] ["cmdA"; "cmdB"]).
  - reflexivity.
  - reflexivity.
  - reflexivity.
  - repeat constructor.
  - reflexivity.
Defined.



(** C1. A first template that fails to render: the promise is rejected
    with that render error, yet the second template is rendered, the
    generator is called, and the batch of what was collected is handed to
    the executor. *)
Theorem react_render_failure_still_submits :
  Mustache.render "echo {{ioEvent.filename" (templateView sampleEvent)
    = inl (Error "Unclosed tag at 23")
  /\ promise (snd (reaction Mustache.render pluginFailingTemplate sampleEvent))
     = Rejected (renderFailure pluginFailingTemplate sampleEvent
                   "echo {{ioEvent.filename" (Error "Unclosed tag at 23"))
  /\ renderedTemplates
       (calls (snd (reaction Mustache.render pluginFailingTemplate sampleEvent)))
     = ["echo {{ioEvent.filename"; "ls {{{ioEvent.parentPath}}}"]
  /\ generatorCalls
       (calls (snd (reaction Mustache.render pluginFailingTemplate sampleEvent)))
     = [sampleEvent]
  /\ submitted
       (calls (snd (reaction Mustache.render pluginFailingTemplate sampleEvent)))
     = [["ls /a/b"; "cmdA"; "cmdB"]].
Proof. repeat split; reflexivity. Qed.

(** C4. A generator that throws after a template has rendered: the promise
    is rejected with the generator's error, yet the rendered command is
    handed to the executor. *)
Theorem react_generator_failure_still_submits :
  generatorThrows sampleEvent = inl (Error "boom")
  /\ promise (snd (reaction Mustache.render pluginThrowingGenerator sampleEvent))
     = Rejected (generatorFailure pluginThrowingGenerator sampleEvent
                   (Error "boom"))
  /\ submitted
       (calls (snd (reaction Mustache.render pluginThrowingGenerator sampleEvent)))
     = [["echo c.txt"]].
Proof. repeat split; reflexivity. Qed.

(** C5, as stated, fails: the view has no key [event], so the template
    [echo {{event.filename}}] renders to [echo ] for the event with full
    path [/a/b/c.txt], and that is the batch submitted. *)
Lemma react_event_key_counterexample :
  IoEvent.fullPath sampleEvent = "/a/b/c.txt"
  /\ getProperty (templateView sampleEvent) "event" = VUndefined
  /\ submitted (calls (snd (reaction Mustache.render pluginEventKey sampleEvent)))
     = [["echo "]]
  /\ submitted (calls (snd (reaction Mustache.render pluginEventKey sampleEvent)))
     <> [["echo c.txt"]].
Proof. repeat split; try reflexivity. discriminate. Qed.

(** C5, amended. The view given to the renderer has the single top-level
    key [ioEvent], under which the event's fields are found, the file name
    being the base name of the full path; and a plugin configured only
    with the template [echo {{ioEvent.filename}}] hands exactly the batch
    [echo c.txt] to its executor for every event whose full path is
    [/a/b/c.txt]. *)
Theorem react_view_key_is_ioEvent :
  (forall ioEvent,
      templateView ioEvent = VObject [("ioEvent", IoEvent.view ioEvent)]
      /\ getProperty (getProperty (templateView ioEvent) "ioEvent") "filename"
         = VString (path.basename (IoEvent.fullPath ioEvent)))
  /\ (forall pluginId reactorId proxy uuid eventType stats extraInfo,
        submitted
          (calls (snd (reaction Mustache.render
                         {| _pluginId := pluginId; _reactorId := reactorId;
                            _statefulProcessCommandProxy := Some proxy;
                            _commandGenerator := None;
                            _commandTemplates :=
                              Some ["echo {{ioEvent.filename}}"] |}
                         (IoEvent.new uuid eventType "/a/b/c.txt"
                                      stats extraInfo))))
        = [["echo c.txt"]]).
Proof.
  split.
  - intros ioEvent. split; reflexivity.
  - intros pluginId reactorId proxy uuid eventType stats extraInfo.
    rewrite (reaction_submitted Mustache.render _ _ proxy);
      reflexivity.
Qed.

(** C6. A configuration with an executor but neither templates nor a
    generator: the constructor returns without a single call (no log, no
    error callback), leaving a plugin with no command source; and a
    reaction of such a plugin hands an empty batch to the executor and is
    fulfilled with a success, with no log above severity info. *)
Theorem constructor_accepts_no_command_source :
  (forall newProxy pluginId reactorId inst,
      constructor newProxy pluginId reactorId
                  {| statefulProcessCommandProxy :=
                       Some {| config := None; instance := Some inst |};
                     commandGenerator := None;
                     commandTemplates := None |} freshHeap
      = (Normal tt,
         {| this := {| _pluginId := pluginId; _reactorId := reactorId;
                       _statefulProcessCommandProxy := Some inst;
                       _commandGenerator := None;
                       _commandTemplates := None |};
            promise := Pending; awaited := None; calls := [] |}))
  /\ this (snd (constructor sampleNewProxy "shellExec1" "reactor1"
                            (sampleConfig None None) freshHeap))
     = samplePlugin None None
  /\ submitted
       (calls (snd (reaction Mustache.render (samplePlugin None None) sampleEvent)))
     = [[]]
  /\ promise (snd (reaction Mustache.render (samplePlugin None None) sampleEvent))
     = Fulfilled (executionSuccess (samplePlugin None None) sampleEvent)
  /\ logSeverities
       (calls (snd (reaction Mustache.render (samplePlugin None None) sampleEvent)))
     = ["info"].
Proof.
  split; [intros newProxy pluginId reactorId inst; reflexivity|].
  repeat split; reflexivity.
Qed.

(** C7. A configuration with an executor and a generator but no
    templates: the constructor sets the generator, schedules its probe and
    returns without calling the initialized callback. *)
Theorem constructor_generator_only_never_signals :
  forall newProxy pluginId reactorId inst generator,
    let h := snd (constructor newProxy pluginId reactorId
                    {| statefulProcessCommandProxy :=
                         Some {| config := None; instance := Some inst |};
                       commandGenerator := Some generator;
                       commandTemplates := None |} freshHeap) in
    calls h = [FsStat ProbeCommandGenerator]
    /\ initializedCalls (calls h) = []
    /\ _commandGenerator (this h) = Some generator
    /\ _statefulProcessCommandProxy (this h) = Some inst.
Proof. intros. repeat split; reflexivity. Qed.

(* ------------------------------------------------------------------ *)
(** ** The further properties on sample inputs *)

(** Witness of X1: a second reaction of [pluginFailingTemplate] to the
    same event, in the heap the first one left. *)
Lemma react_independent_of_earlier_reactions_witness :
  this (snd (withReactions (react Mustache.render sampleEvent)
               (snd (reaction Mustache.render pluginFailingTemplate sampleEvent))))
    = pluginFailingTemplate
  /\ promise (snd (withReactions (react Mustache.render sampleEvent)
                     (snd (reaction Mustache.render pluginFailingTemplate
                             sampleEvent))))
     = promise (snd (reaction Mustache.render pluginFailingTemplate sampleEvent))
  /\ calls (snd (withReactions (react Mustache.render sampleEvent)
                   (snd (reaction Mustache.render pluginFailingTemplate
                           sampleEvent))))
     = calls (snd (reaction Mustache.render pluginFailingTemplate sampleEvent))
         ++ calls (snd (reaction Mustache.render pluginFailingTemplate sampleEvent)).
Proof.
  apply (react_independent_of_earlier_reactions Mustache.render
           pluginFailingTemplate sampleEvent
           (snd (reaction Mustache.render pluginFailingTemplate sampleEvent))).
  reflexivity.
Defined.

(** Witness of X2: one template and the rejecting executor. *)
Lemma react_execution_failure_witness :
  promise (snd (reaction Mustache.render
                  (samplePluginOn (Some rejectingProxy)
                                  (Some ["echo {{ioEvent.filename}}"]) None)
                  sampleEvent))
  = Rejected (ReactorResult.new false "shellExec1" "reactor1" sampleEvent
                "Error executing commands: Error: exit status 1"
                (Some (Error "exit status 1")))
  /\ calls (snd (reaction Mustache.render
                   (samplePluginOn (Some rejectingProxy)
                                   (Some ["echo {{ioEvent.filename}}"]) None)
                   sampleEvent))
     = collectCalls
         (samplePluginOn (Some rejectingProxy)
                         (Some ["echo {{ioEvent.filename}}"]) None)
         sampleEvent
         ++ [ExecuteCommands ["echo c.txt"]].
Proof.
  apply (react_execution_failure Mustache.render
           (samplePluginOn (Some rejectingProxy)
                           (Some ["echo {{ioEvent.filename}}"]) None)
           sampleEvent rejectingProxy (Error "exit status 1")).
  - reflexivity.
  - split.
    + repeat constructor. eexists. reflexivity.
    + intros generator Hgenerator. discriminate.
  - reflexivity.
Defined.

(** Witness of X3: one template and the executor that throws. *)
Lemma react_executor_throws_witness :
  fst (reaction Mustache.render
         (samplePluginOn (Some throwingProxy)
                         (Some ["echo {{ioEvent.filename}}"]) None)
         sampleEvent) = Normal tt
  /\ promise (snd (reaction Mustache.render
                     (samplePluginOn (Some throwingProxy)
                                     (Some ["echo {{ioEvent.filename}}"]) None)
                     sampleEvent))
     = RejectedError (Error "pool is shut down")
  /\ submitted (calls (snd (reaction Mustache.render
                              (samplePluginOn (Some throwingProxy)
                                 (Some ["echo {{ioEvent.filename}}"]) None)
                              sampleEvent)))
     = [["echo c.txt"]].
Proof.
  apply (react_executor_throws Mustache.render
           (samplePluginOn (Some throwingProxy)
                           (Some ["echo {{ioEvent.filename}}"]) None)
           sampleEvent throwingProxy (Error "pool is shut down")).
  - reflexivity.
  - split.
    + repeat constructor. eexists. reflexivity.
    + intros generator Hgenerator. discriminate.
  - reflexivity.
Defined.

(** Witness of X4: one template and no executor. *)
Lemma react_without_executor_rejects_raw_witness :
  fst (reaction Mustache.render
         (samplePluginOn None (Some ["echo {{ioEvent.filename}}"]) None)
         sampleEvent) = Normal tt
  /\ (exists e,
        promise (snd (reaction Mustache.render
                        (samplePluginOn None (Some ["echo {{ioEvent.filename}}"])
                                        None)
                        sampleEvent))
        = RejectedError e
        /\ errName e = "TypeError")
  /\ calls (snd (reaction Mustache.render
                   (samplePluginOn None (Some ["echo {{ioEvent.filename}}"])
                                   None)
                   sampleEvent))
     = collectCalls
         (samplePluginOn None (Some ["echo {{ioEvent.filename}}"]) None)
         sampleEvent
  /\ renderedTemplates
       (calls (snd (reaction Mustache.render
                      (samplePluginOn None (Some ["echo {{ioEvent.filename}}"])
                                      None)
                      sampleEvent)))
     = ["echo {{ioEvent.filename}}"]
  /\ submitted
       (calls (snd (reaction Mustache.render
                      (samplePluginOn None (Some ["echo {{ioEvent.filename}}"])
                                      None)
                      sampleEvent))) = [].
Proof.
  apply (react_without_executor_rejects_raw Mustache.render
           (samplePluginOn None (Some ["echo {{ioEvent.filename}}"]) None)
           sampleEvent).
  - reflexivity.
  - split.
    + repeat constructor. eexists. reflexivity.
    + intros generator Hgenerator. discriminate.
Defined.

(** Witness of X5: one template and the executor that never settles. *)
Lemma react_pending_while_executor_pending_witness :
  promise (snd (reaction Mustache.render
                  (samplePluginOn (Some pendingProxy)
                                  (Some ["echo {{ioEvent.filename}}"]) None)
                  sampleEvent)) = Pending
  /\ submitted
       (calls (snd (reaction Mustache.render
                      (samplePluginOn (Some pendingProxy)
                                      (Some ["echo {{ioEvent.filename}}"]) None)
                      sampleEvent)))
     = [["echo c.txt"]].
Proof.
  apply (react_pending_while_executor_pending Mustache.render
           (samplePluginOn (Some pendingProxy)
                           (Some ["echo {{ioEvent.filename}}"]) None)
           sampleEvent pendingProxy).
  - reflexivity.
  - split.
    + repeat constructor. eexists. reflexivity.
    + intros generator Hgenerator. discriminate.
  - reflexivity.
Defined.

(** Witness of X6: one template and the accepting executor. *)
Lemma react_success_logs_each_result_witness :
  promise (snd (reaction Mustache.render pluginIoEventKey sampleEvent))
  = Fulfilled (ReactorResult.new true "shellExec1" "reactor1" sampleEvent
                 "Executed commands successfully" None)
  /\ calls (snd (reaction Mustache.render pluginIoEventKey sampleEvent))
     = collectCalls pluginIoEventKey sampleEvent
         ++ [ ExecuteCommands ["echo c.txt"];
              LogFunction "info" "ShellExecReactorPlugin[reactor1][shellExec1]"
                "CmdResult: cmd: echo c.txt stdout: stderr:" ].
Proof.
  apply (react_success_logs_each_result Mustache.render pluginIoEventKey
           sampleEvent acceptingProxy
           [{| command := "echo c.txt"; stdout := ""; stderr := "" |}]).
  - reflexivity.
  - split.
    + repeat constructor. eexists. reflexivity.
    + intros generator Hgenerator. discriminate.
  - reflexivity.
Defined.



(** Witness of X17: a template that renders to nothing and one that
    renders to a command. *)
Lemma react_templates_submit_no_empty_command_witness :
  exists commands,
    submitted (calls (snd (reaction Mustache.render
                             (samplePlugin (Some ["{{! nothing }}"; "echo hi"])
                                           None)
                             sampleEvent))) = [commands]
    /\ ~ In "" commands
    /\ List.length commands <= 2.
Proof.
  apply (react_templates_submit_no_empty_command Mustache.render
           (samplePlugin (Some ["{{! nothing }}"; "echo hi"]) None)
           sampleEvent acceptingProxy); reflexivity.
Defined.

(** Witness of X9: both an instance and a config whose construction
    fails. *)
Lemma constructor_reports_failed_executor_construction_witness :
  this (snd (constructor failingNewProxy "shellExec1" "reactor1"
               {| statefulProcessCommandProxy :=
                    Some {| config := Some sampleProxyConfig;
                            instance := Some acceptingProxy |};
                  commandGenerator := Some generatorAB;
                  commandTemplates := Some ["echo hi"] |} freshHeap))
  = samplePluginOn None (Some ["echo hi"]) (Some generatorAB)
  /\ errorCalls
       (calls (snd (constructor failingNewProxy "shellExec1" "reactor1"
                      {| statefulProcessCommandProxy :=
                           Some {| config := Some sampleProxyConfig;
                                   instance := Some acceptingProxy |};
                         commandGenerator := Some generatorAB;
                         commandTemplates := Some ["echo hi"] |} freshHeap)))
     = [("ShellExecReactorPlugin[reactor1][shellExec1] error constructing StatefulProcessCommandProxy: Error: invalid pool configuration",
         Error "invalid pool configuration")]
  /\ logSeverities
       (calls (snd (constructor failingNewProxy "shellExec1" "reactor1"
                      {| statefulProcessCommandProxy :=
                           Some {| config := Some sampleProxyConfig;
                                   instance := Some acceptingProxy |};
                         commandGenerator := Some generatorAB;
                         commandTemplates := Some ["echo hi"] |} freshHeap)))
     = ["error"]
  /\ initializedCalls
       (calls (snd (constructor failingNewProxy "shellExec1" "reactor1"
                      {| statefulProcessCommandProxy :=
                           Some {| config := Some sampleProxyConfig;
                                   instance := Some acceptingProxy |};
                         commandGenerator := Some generatorAB;
                         commandTemplates := Some ["echo hi"] |} freshHeap)))
     = ["shellExec1"].
Proof.
  apply (constructor_reports_failed_executor_construction failingNewProxy
           "shellExec1" "reactor1" sampleProxyConfig (Some acceptingProxy)
           (Some generatorAB) (Some ["echo hi"])
           (Error "invalid pool configuration")).
  reflexivity.
Defined.

(** Witness of X10: templates and an existing instance. *)
Lemma constructor_initialized_with_templates_witness :
  initializedCalls
    (calls (snd (constructor sampleNewProxy "shellExec1" "reactor1"
                   (sampleConfig None (Some ["echo hi"])) freshHeap)))
  = ["shellExec1"].
Proof.
  apply (constructor_initialized_with_templates sampleNewProxy
           "shellExec1" "reactor1"
           {| config := None; instance := Some acceptingProxy |}
           None ["echo hi"]).
  right. discriminate.
Defined.

(** Witness of X11: no [statefulProcessCommandProxy] at all, with both
    command sources configured. *)
Lemma constructor_without_executor_stores_no_source_witness :
  this (snd (constructor sampleNewProxy "shellExec1" "reactor1"
               {| statefulProcessCommandProxy := None;
                  commandGenerator := Some generatorAB;
                  commandTemplates := Some ["echo hi"] |} freshHeap))
  = samplePluginOn None None None
  /\ initializedCalls
       (calls (snd (constructor sampleNewProxy "shellExec1" "reactor1"
                      {| statefulProcessCommandProxy := None;
                         commandGenerator := Some generatorAB;
                         commandTemplates := Some ["echo hi"] |} freshHeap)))
     = []
  /\ logSeverities
       (calls (snd (constructor sampleNewProxy "shellExec1" "reactor1"
                      {| statefulProcessCommandProxy := None;
                         commandGenerator := Some generatorAB;
                         commandTemplates := Some ["echo hi"] |} freshHeap)))
     = ["error"]
  /\ List.length
       (errorCalls
          (calls (snd (constructor sampleNewProxy "shellExec1" "reactor1"
                         {| statefulProcessCommandProxy := None;
                            commandGenerator := Some generatorAB;
                            commandTemplates := Some ["echo hi"] |} freshHeap))))
     = 1
  /\ List.length
       (calls (snd (constructor sampleNewProxy "shellExec1" "reactor1"
                      {| statefulProcessCommandProxy := None;
                         commandGenerator := Some generatorAB;
                         commandTemplates := Some ["echo hi"] |} freshHeap)))
     = 2.
Proof.
  apply (constructor_without_executor_stores_no_source sampleNewProxy
           "shellExec1" "reactor1" None (Some generatorAB) (Some ["echo hi"])).
  left. reflexivity.
Defined.

(** Witness of X13: a template that renders and one with an unclosed
    tag. *)
Lemma probeCommandTemplates_logs_each_template_witness :
  probeCommandTemplates Mustache.render None VUndefined "probe-1"
    (heapOf (samplePlugin (Some ["echo {{ioEvent.filename}}"; "echo {{oops"])
                          None))
  = (Normal tt,
     {| this := samplePlugin (Some ["echo {{ioEvent.filename}}"; "echo {{oops"])
                             None;
        promise := Pending; awaited := None;
        calls :=
          flat_map
            (probeTemplateCalls Mustache.render
               (samplePlugin (Some ["echo {{ioEvent.filename}}"; "echo {{oops"])
                             None)
               (templatesProbeEvent "probe-1" VUndefined))
            ["echo {{ioEvent.filename}}"; "echo {{oops"] |})
  /\ renderedTemplates
       (flat_map
          (probeTemplateCalls Mustache.render
             (samplePlugin (Some ["echo {{ioEvent.filename}}"; "echo {{oops"])
                           None)
             (templatesProbeEvent "probe-1" VUndefined))
          ["echo {{ioEvent.filename}}"; "echo {{oops"])
     = ["echo {{ioEvent.filename}}"; "echo {{oops"]
  /\ logSeverities
       (flat_map
          (probeTemplateCalls Mustache.render
             (samplePlugin (Some ["echo {{ioEvent.filename}}"; "echo {{oops"])
                           None)
             (templatesProbeEvent "probe-1" VUndefined))
          ["echo {{ioEvent.filename}}"; "echo {{oops"])
     = ["info"; "error"]
  /\ errorCalls
       (flat_map
          (probeTemplateCalls Mustache.render
             (samplePlugin (Some ["echo {{ioEvent.filename}}"; "echo {{oops"])
                           None)
             (templatesProbeEvent "probe-1" VUndefined))
          ["echo {{ioEvent.filename}}"; "echo {{oops"])
     = [].
Proof.
  apply (probeCommandTemplates_logs_each_template Mustache.render VUndefined
           "probe-1"
           (heapOf (samplePlugin
                      (Some ["echo {{ioEvent.filename}}"; "echo {{oops"]) None))
           ["echo {{ioEvent.filename}}"; "echo {{oops"]).
  reflexivity.
Defined.

(** Witness of X14: the generator that throws. *)
Lemma probeCommandGenerator_failure_escapes_witness :
  probeCommandGenerator None VUndefined "probe-1"
    (heapOf pluginThrowingGenerator)
  = (Throw (Error "boom"),
     {| this := pluginThrowingGenerator; promise := Pending; awaited := None;
        calls := [CommandGeneratorCall
                    (generatorProbeEvent "probe-1" VUndefined)] |})
  /\ (forall err,
        probeCommandGenerator (Some err) VUndefined "probe-1"
          (heapOf pluginThrowingGenerator)
        = (Throw err, heapOf pluginThrowingGenerator))
  /\ (forall err,
        probeCommandTemplates Mustache.render (Some err) VUndefined "probe-1"
          (heapOf pluginThrowingGenerator)
        = (Throw err, heapOf pluginThrowingGenerator)).
Proof.
  apply (probeCommandGenerator_failure_escapes Mustache.render VUndefined
           "probe-1" (heapOf pluginThrowingGenerator) generatorThrows
           (Error "boom")); reflexivity.
Defined.

(** Witness of X18: the generator that returns [cmdA], [cmdB]. *)
Lemma probeCommandGenerator_logs_commands_witness :
  probeCommandGenerator None VUndefined "probe-1"
    (heapOf (samplePlugin None (Some generatorAB)))
  = (Normal tt,
     {| this := samplePlugin None (Some generatorAB);
        promise := Pending; awaited := None;
        calls :=
          [ CommandGeneratorCall (generatorProbeEvent "probe-1" VUndefined);
            LogFunction "info" "ShellExecReactorPlugin[reactor1][shellExec1]"
              "commandGenerator() function returned test command to exec: cmdA,cmdB" ] |}).
Proof.
  apply (probeCommandGenerator_logs_commands VUndefined "probe-1"
           (heapOf (samplePlugin None (Some generatorAB))) generatorAB
           ["cmdA"; "cmdB"]); reflexivity.
Defined.

(** Witness of X19: constructed with the template [cmdT] and the generator
    returning [cmdA], [cmdB], then reacting to [sampleEvent]. *)
Lemma constructed_plugin_reacts_with_configuration_witness :
  submitted
    (calls (snd (constructor sampleNewProxy "shellExec1" "reactor1"
                   (sampleConfig (Some generatorAB) (Some ["cmdT"]))
                   freshHeap))) = []
  /\ submitted
       (calls (snd (withReactions (react Mustache.render sampleEvent)
                      (snd (constructor sampleNewProxy "shellExec1" "reactor1"
                              (sampleConfig (Some generatorAB) (Some ["cmdT"]))
                              freshHeap)))))
     = [["cmdT"; "cmdA"; "cmdB"]].
Proof.
  apply (constructed_plugin_reacts_with_configuration Mustache.render
           sampleNewProxy "shellExec1" "reactor1" acceptingProxy generatorAB
           ["cmdT"] sampleEvent ["cmdT"] ["cmdA"; "cmdB"]).
  - repeat constructor.
  - reflexivity.
Defined.

(** Witness of X20: three templates of which the second has an unclosed
    tag. *)
Lemma react_render_failure_submits_the_rest_witness :
  promise (snd (reaction Mustache.render
                  (samplePlugin (Some ["echo one"; "echo {{ioEvent.filename";
                                       "echo {{ioEvent.filename}}"]) None)
                  sampleEvent))
  = Rejected (ReactorResult.new false "shellExec1" "reactor1" sampleEvent
                "Error generating command from mustache template: echo {{ioEvent.filename Error: Unclosed tag at 23"
                (Some (Error "Unclosed tag at 23")))
  /\ submitted
       (calls (snd (reaction Mustache.render
                      (samplePlugin (Some ["echo one"; "echo {{ioEvent.filename";
                                           "echo {{ioEvent.filename}}"]) None)
                      sampleEvent)))
     = [["echo one"; "echo c.txt"]].
Proof.
  apply (react_render_failure_submits_the_rest Mustache.render
           (samplePlugin (Some ["echo one"; "echo {{ioEvent.filename";
                                "echo {{ioEvent.filename}}"]) None)
           sampleEvent acceptingProxy ["echo one"] "echo {{ioEvent.filename"
           (Error "Unclosed tag at 23") ["echo {{ioEvent.filename}}"]
           ["echo one"] ["echo c.txt"]).
  - reflexivity.
  - reflexivity.
  - reflexivity.
  - repeat constructor.
  - reflexivity.
  - repeat constructor.
Defined.

(** C2. [react] does not always settle with a [ReactorResult].  A plugin
    whose executor could not be constructed is left without executor by
    the constructor, which reports the error, goes on and calls the
    initialized callback; [react] on that plugin returns normally (it
    never throws), but the call of [executeCommands] on the missing
    executor throws inside [new Promise], and the promise is rejected
    with that [TypeError] itself: neither fulfilled nor rejected with a
    result carrying the event.  The same happens with the error thrown by
    an executor whose [executeCommands] throws. *)
Theorem react_rejects_without_result :
  this (snd (constructor failingNewProxy "shellExec1" "reactor1"
               configWithExecutorConfig freshHeap))
  = samplePluginOn None (Some ["echo {{ioEvent.filename}}"]) None
  /\ initializedCalls
       (calls (snd (constructor failingNewProxy "shellExec1" "reactor1"
                      configWithExecutorConfig freshHeap)))
     = ["shellExec1"]
  /\ fst (withReactions (react Mustache.render sampleEvent)
             (snd (constructor failingNewProxy "shellExec1" "reactor1"
                     configWithExecutorConfig freshHeap)))
     = Normal tt
  /\ (exists e,
        promise (snd (withReactions (react Mustache.render sampleEvent)
                        (snd (constructor failingNewProxy "shellExec1"
                                "reactor1" configWithExecutorConfig
                                freshHeap))))
        = RejectedError e
        /\ errName e = "TypeError")
  /\ (forall result,
        promise (snd (withReactions (react Mustache.render sampleEvent)
                        (snd (constructor failingNewProxy "shellExec1"
                                "reactor1" configWithExecutorConfig
                                freshHeap))))
        <> Fulfilled result
        /\ promise (snd (withReactions (react Mustache.render sampleEvent)
                           (snd (constructor failingNewProxy "shellExec1"
                                   "reactor1" configWithExecutorConfig
                                   freshHeap))))
           <> Rejected result)
  /\ promise (snd (reaction Mustache.render
                     (samplePluginOn (Some throwingProxy)
                                     (Some ["echo {{ioEvent.filename}}"]) None)
                     sampleEvent))
     = RejectedError (Error "pool is shut down").
Proof.
  split; [reflexivity|]. split; [reflexivity|]. split; [reflexivity|].
  split; [eexists; split; reflexivity|].
  split; [|reflexivity].
  intros result. split; discriminate.
Qed.
